(** * RepoSwarm CLI: a shallow embedding of [reposwarm_cli.py]

    The development follows the source file top to bottom:
    - [PyStr]: the [str] methods the program uses ([split], [replace],
      [in], slicing, [join]);
    - [Py]: exceptions and the values [json.load] produces, with the dynamic
      operations the program applies to them;
    - [FS]: the file tree the program reads and writes through [pathlib],
      [shutil] and [git];
    - [SimpleInvestigator]: the methods of the class of that name;
    - the batch driver [analyze_all_repositories];
    - the rest of the program: the summary, [analyze_one_repository], the
      driver on its configuration file and [main];
    - the theorems, one block per property.

    Conventions.  A Python [str] is a Rocq [string]: one [ascii] per
    character.  The four box-drawing connectors of the tree renderer lie
    outside that range and are written by the bytes of their UTF-8
    encoding; the program only concatenates them.  [print] calls are left
    out, except for the arguments they evaluate when these can raise. *)

From Stdlib Require Import String Ascii List Bool Arith Lia ZArith Permutation.
Import ListNotations.
Open Scope list_scope.
Open Scope string_scope.

(* ================================================================== *)
(** ** Python strings *)

Module PyStr.

(** [sep.join(parts)] *)
Definition join (sep : string) (parts : list string) : string :=
  String.concat sep parts.

(** [s.startswith(p)] *)
Fixpoint startswith (p s : string) : bool :=
  match p with
  | EmptyString => true
  | String a p' =>
      match s with
      | EmptyString => false
      | String b s' => Ascii.eqb a b && startswith p' s'
      end
  end.

(** [s.endswith(p)] *)
Definition endswith (p s : string) : bool :=
  Nat.leb (String.length p) (String.length s)
  && String.eqb (substring (String.length s - String.length p) (String.length p) s) p.

(** [sub in s] for two strings *)
Fixpoint contains (sub s : string) : bool :=
  match s with
  | EmptyString => startswith sub s
  | String _ s' => startswith sub s || contains sub s'
  end.

(** [s[:n]] *)
Definition slice_to (n : nat) (s : string) : string := substring 0 n s.

(** [s.split(sep)] for a one-character separator: never the empty list. *)
Fixpoint split (sep : ascii) (s : string) : list string :=
  match s with
  | EmptyString => [EmptyString]
  | String c s' =>
      if Ascii.eqb c sep then EmptyString :: split sep s'
      else match split sep s' with
           | h :: t => String c h :: t
           | [] => [String c EmptyString]
           end
  end.

(** [xs[-1]] on a list of strings known to be non-empty. *)
Definition last_item (xs : list string) : string := List.last xs EmptyString.

(** [s.replace(old, new)] for a non-empty [old]: one pass from the left,
    occurrences do not overlap.  [skip] counts the characters of a matched
    occurrence still to be passed over. *)
Fixpoint replace_from (skip : nat) (old new s : string) : string :=
  match s with
  | EmptyString => EmptyString
  | String c s' =>
      match skip with
      | S k => replace_from k old new s'
      | O =>
          if startswith old s
          then new ++ replace_from (String.length old - 1) old new s'
          else String c (replace_from 0 old new s')
      end
  end.

Definition replace (old new s : string) : string := replace_from 0 old new s.

End PyStr.

(* ================================================================== *)
(** ** Python values and exceptions *)

Module Py.

(** An exception is its class name and [str(e)].  Every exception of the
    model is an instance of [Exception]; [KeyboardInterrupt] and
    [SystemExit], which come from outside the program, are not part of it. *)
Record exn := Exn { exn_class : string; exn_str : string }.

(** The outcome of a statement that may raise. *)
Inductive result (A : Type) : Type :=
| Ok (a : A)
| Raise (e : exn).
Arguments Ok {A} a.
Arguments Raise {A} e.

Definition bind {A B} (r : result A) (k : A -> result B) : result B :=
  match r with
  | Ok a => k a
  | Raise e => Raise e
  end.

(** What [json.load] returns.  Objects keep their items in insertion
    order, one item per key.  Numbers are integers: the program only ever
    tests a number for truth. *)
#[warnings="-register-all"]
Inductive json :=
| JNull
| JBool (b : bool)
| JNum (n : Z)
| JStr (s : string)
| JArr (items : list json)
| JObj (fields : list (string * json)).

Definition type_name (v : json) : string :=
  match v with
  | JNull => "NoneType"
  | JBool _ => "bool"
  | JNum _ => "int"
  | JStr _ => "str"
  | JArr _ => "list"
  | JObj _ => "dict"
  end.

Definition TypeError (msg : string) : exn := Exn "TypeError" msg.
Definition KeyError (key : string) : exn := Exn "KeyError" ("'" ++ key ++ "'").
Definition IndexError (msg : string) : exn := Exn "IndexError" msg.
Definition AttributeError (v : json) (attr : string) : exn :=
  Exn "AttributeError"
      ("'" ++ type_name v ++ "' object has no attribute '" ++ attr ++ "'").

(** [d[key]] on the items of a dict, as an option *)
Fixpoint item (key : string) (fields : list (string * json)) : option json :=
  match fields with
  | [] => None
  | (k, v) :: rest => if String.eqb k key then Some v else item key rest
  end.

Definition is_str (key : string) (v : json) : bool :=
  match v with
  | JStr s => String.eqb s key
  | _ => false
  end.


(** [key in v] for a string [key] *)
Definition contains (key : string) (v : json) : result bool :=
  match v with
  | JObj fields => Ok (match item key fields with Some _ => true | None => false end)
  | JArr items => Ok (existsb (is_str key) items)
  | JStr s => Ok (PyStr.contains key s)
  | _ => Raise (TypeError ("argument of type '" ++ type_name v ++ "' is not iterable"))
  end.

(** [len(v)] *)
Definition len (v : json) : result nat :=
  match v with
  | JObj fields => Ok (List.length fields)
  | JArr items => Ok (List.length items)
  | JStr s => Ok (String.length s)
  | _ => Raise (TypeError ("object of type '" ++ type_name v ++ "' has no len()"))
  end.

(** [v[key]] for a string [key] *)
Definition getitem (v : json) (key : string) : result json :=
  match v with
  | JObj fields =>
      match item key fields with
      | Some x => Ok x
      | None => Raise (KeyError key)
      end
  | JArr _ => Raise (TypeError "list indices must be integers or slices, not str")
  | JStr _ => Raise (TypeError "string indices must be integers, not 'str'")
  | _ => Raise (TypeError ("'" ++ type_name v ++ "' object is not subscriptable"))
  end.

(** [v[0]] *)
Definition getitem0 (v : json) : result json :=
  match v with
  | JArr (x :: _) => Ok x
  | JArr [] => Raise (IndexError "list index out of range")
  | JStr (String c _) => Ok (JStr (String c EmptyString))
  | JStr EmptyString => Raise (IndexError "string index out of range")
  | JObj _ => Raise (Exn "KeyError" "0")
  | _ => Raise (TypeError ("'" ++ type_name v ++ "' object is not subscriptable"))
  end.

(** [v.get(key, default)] *)
Definition get (v : json) (key : string) (default : json) : result json :=
  match v with
  | JObj fields =>
      Ok (match item key fields with Some x => x | None => default end)
  | _ => Raise (AttributeError v "get")
  end.

(** [bool(v)], the test of [if v:] *)
Definition truthy (v : json) : bool :=
  match v with
  | JNull => false
  | JBool b => b
  | JNum n => negb (Z.eqb n 0)
  | JStr s => negb (String.eqb s EmptyString)
  | JArr items => match items with [] => false | _ => true end
  | JObj fields => match fields with [] => false | _ => true end
  end.

Fixpoint chars (s : string) : list json :=
  match s with
  | EmptyString => []
  | String c s' => JStr (String c EmptyString) :: chars s'
  end.

(** The elements [for x in v[:n]] runs over *)
Definition slice_to (n : nat) (v : json) : result (list json) :=
  match v with
  | JArr items => Ok (firstn n items)
  | JStr s => Ok (chars (PyStr.slice_to n s))
  | JObj _ => Raise (TypeError "unhashable type: 'slice'")
  | _ => Raise (TypeError ("'" ++ type_name v ++ "' object is not subscriptable"))
  end.

(** [str(v)] as an f-string field renders it; [repr] is the builtin. *)
Definition str (repr : json -> string) (v : json) : string :=
  match v with
  | JStr s => s
  | _ => repr v
  end.

End Py.

Import Py.

Declare Scope py_scope.
Delimit Scope py_scope with py.
Notation "x <- c1 ;; c2" := (Py.bind c1 (fun x => c2))
  (at level 61, c1 at next level, right associativity) : py_scope.
Notation "c1 ;;; c2" := (Py.bind c1 (fun _ => c2))
  (at level 61, right associativity) : py_scope.
Open Scope py_scope.

(* ================================================================== *)
(** ** Paths *)

(** A [pathlib.Path] is the list of its components, outermost first.
    Components are plain names: no separator inside, no [.] or [..]. *)
Definition path := list string.

(** [base / name] *)
Definition path_join (base : path) (name : string) : path :=
  (base ++ [name])%list.

(* ================================================================== *)
(** ** The file tree *)

Module FS.

(** A node of the file tree.  A file carries what [read_text()] gives:
    [Some] text, or [None] where reading raises (no permission, bytes that
    are no text).  A directory carries its entries in the order the
    operating system lists them, and whether it may be listed at all:
    [iterdir()] on an unlistable directory raises [PermissionError].

    The tree holds regular files and directories, no links, and every
    directory of it may be searched: the status of every path can be
    read, so that [exists()] and [is_dir()] answer.  Where a status cannot
    be read they raise [PermissionError]; [path_exists] below,
    [walk_dir_stat] and [_read_key_files_stat] show that case. *)
#[warnings="-register-all"]
Inductive node :=
| File (text : option string)
| Dir (listable : bool) (children : list (string * node)).

Definition FileExistsError (p : path) : exn :=
  Exn "FileExistsError" ("[Errno 17] File exists: '" ++ PyStr.join "/" p ++ "'").
Definition NotADirectoryError (p : path) : exn :=
  Exn "NotADirectoryError" ("[Errno 20] Not a directory: '" ++ PyStr.join "/" p ++ "'").
Definition IsADirectoryError (p : path) : exn :=
  Exn "IsADirectoryError" ("[Errno 21] Is a directory: '" ++ PyStr.join "/" p ++ "'").
Definition FileNotFoundError (p : path) : exn :=
  Exn "FileNotFoundError" ("[Errno 2] No such file or directory: '" ++ PyStr.join "/" p ++ "'").
Definition UnreadableError (p : path) : exn :=
  Exn "OSError" ("cannot read '" ++ PyStr.join "/" p ++ "' as text").
Definition PermissionError (p : path) : exn :=
  Exn "PermissionError" ("[Errno 13] Permission denied: '" ++ PyStr.join "/" p ++ "'").

(** The entry called [name] in a directory listing. *)
Fixpoint child (name : string) (children : list (string * node)) : option node :=
  match children with
  | [] => None
  | (k, n) :: rest => if String.eqb k name then Some n else child name rest
  end.

(** The node a path leads to, from the node [n]. *)
Fixpoint lookup (p : path) (n : node) : option node :=
  match p with
  | [] => Some n
  | name :: rest =>
      match n with
      | Dir _ children =>
          match child name children with
          | Some c => lookup rest c
          | None => None
          end
      | File _ => None
      end
  end.

(** [p.exists()], the status of [p] being readable. *)
Definition exists_ (p : path) (fs : node) : bool :=
  match lookup p fs with
  | Some _ => true
  | None => false
  end.

(** [p.exists()] where the status of the paths in [denied] cannot be
    read (a link into a directory that may not be searched, an entry of
    such a directory): [stat] fails there with [EACCES], which is not
    among the errors [exists()] takes for an absent file. *)
Definition path_exists (denied : path -> bool) (p : path) (fs : node) : result bool :=
  if denied p then Raise (PermissionError p) else Ok (exists_ p fs).

(** [item.is_dir()] on a node, its status being readable. *)
Definition is_dir (n : node) : bool :=
  match n with
  | Dir _ _ => true
  | File _ => false
  end.

(** A directory holds one entry of a name; should a listing show more,
    only the first is ever reached, and removing it removes them all. *)
Definition remove_entries (name : string) (children : list (string * node))
  : list (string * node) :=
  filter (fun entry => negb (String.eqb (fst entry) name)) children.

(** Rewrite the entry called [name]: [f] gives its new content, or [None]
    to drop it. *)
Fixpoint alter_entries (f : node -> option node) (name : string)
    (children : list (string * node)) : list (string * node) :=
  match children with
  | [] => []
  | (k, n) :: rest =>
      if String.eqb k name
      then match f n with
           | Some n' => (k, n') :: rest
           | None => remove_entries name rest
           end
      else (k, n) :: alter_entries f name rest
  end.

(** Apply [f] to the node at [p]; [None] removes it from its parent. *)
Fixpoint update (f : node -> option node) (p : path) (n : node) : node :=
  match p with
  | [] => match f n with Some n' => n' | None => n end
  | name :: rest =>
      match n with
      | Dir l children =>
          Dir l (match rest with
                 | [] => alter_entries f name children
                 | _ => alter_entries (fun c => Some (update f rest c)) name children
                 end)
      | File _ => n
      end
  end.

(** [p.mkdir(parents=True, exist_ok=True)]: missing directories are
    created along [p]; a file on the way, or at [p] itself, makes it
    raise.  [at_] is the path walked so far, for the message. *)
Fixpoint mkdir_from (at_ : path) (p : path) (n : node) : result node :=
  match p with
  | [] =>
      match n with
      | Dir _ _ => Ok n
      | File _ => Raise (FileExistsError at_)
      end
  | name :: rest =>
      match n with
      | File _ => Raise (NotADirectoryError (path_join at_ name))
      | Dir l children =>
          match child name children with
          | Some c =>
              c' <- mkdir_from (path_join at_ name) rest c ;;
              Ok (Dir l (alter_entries (fun _ => Some c') name children))
          | None =>
              c' <- mkdir_from (path_join at_ name) rest (Dir true []) ;;
              Ok (Dir l (children ++ [(name, c')])%list)
          end
      end
  end.

Definition mkdir (p : path) (fs : node) : result node := mkdir_from [] p fs.

(** [p.read_text()] *)
Definition read_text (p : path) (fs : node) : result string :=
  match lookup p fs with
  | Some (File (Some text)) => Ok text
  | Some (File None) => Raise (UnreadableError p)
  | Some (Dir _ _) => Raise (IsADirectoryError p)
  | None => Raise (FileNotFoundError p)
  end.

(** The file called [name] in the directory [parent] opened with mode
    ['w'] and closed holding [text], given what [parent] leads to. *)
Definition write_entry (parent : path) (name text : string) (fs : node)
  : result node :=
  match lookup parent fs with
  | Some (Dir _ children) =>
      match child name children with
      | Some (Dir _ _) => Raise (IsADirectoryError (path_join parent name))
      | Some (File _) =>
          Ok (update (fun _ => Some (File (Some text))) (path_join parent name) fs)
      | None =>
          Ok (update (fun d =>
                        Some match d with
                             | Dir l ch => Dir l (ch ++ [(name, File (Some text))])%list
                             | File _ => d
                             end)
                     parent fs)
      end
  | Some (File _) => Raise (NotADirectoryError (path_join parent name))
  | None => Raise (FileNotFoundError (path_join parent name))
  end.

(** [open(p, mode='w')], then [text] written and the file closed: the
    file at [p] is created or overwritten, or [open] raises and nothing
    has changed. *)
Definition put_text (p : path) (text : string) (fs : node) : result node :=
  match p with
  | [] => Raise (IsADirectoryError p)
  | _ => write_entry (removelast p) (PyStr.last_item p) text fs
  end.

(** One way a removal by [shutil.rmtree(_, ignore_errors=True)] goes:
    the removal met by a user who may write everywhere in the tree.
    [None] says that the node is gone.  Files are unlinked.  A directory
    that cannot be listed cannot be emptied and stays as it is; any other
    directory goes once all its entries are gone.  No error is reported
    either way.  Other removals leave more: see [rmtree_leaves]. *)
Fixpoint rm_where_listable (n : node) : option node :=
  match n with
  | File _ => None
  | Dir false _ => Some n
  | Dir true children =>
      match (fix rm_entries (l : list (string * node)) : list (string * node) :=
               match l with
               | [] => []
               | (k, c) :: l' =>
                   match rm_where_listable c with
                   | None => rm_entries l'
                   | Some c' => (k, c') :: rm_entries l'
                   end
               end) children with
      | [] => None
      | kept => Some (Dir true kept)
      end
  end.

(** Every directory of the tree can be listed. *)
Fixpoint listable_tree (n : node) : bool :=
  match n with
  | File _ => true
  | Dir l children =>
      l && (fix all (cs : list (string * node)) : bool :=
              match cs with
              | [] => true
              | (_, c) :: cs' => listable_tree c && all cs'
              end) children
  end.

(** Induction on a node with the property known of every entry. *)
Fixpoint node_entries_ind (P : node -> Prop)
    (on_file : forall text, P (File text))
    (on_dir : forall listable children,
        Forall (fun entry => P (snd entry)) children -> P (Dir listable children))
    (n : node) : P n :=
  match n with
  | File text => on_file text
  | Dir listable children =>
      on_dir listable children
        ((fix entries (cs : list (string * node))
            : Forall (fun entry => P (snd entry)) cs :=
            match cs with
            | [] => Forall_nil _
            | (k, c) :: cs' =>
                Forall_cons (k, c) (node_entries_ind P on_file on_dir c) (entries cs')
            end) children)
  end.

End FS.

Import FS.

(* ================================================================== *)
(** ** Names derived from the repository URL (lines 43, 44 and 53) *)

(** [repo_url.split('/')[-1].replace('.git', '')] *)
Definition repo_name_of (repo_url : string) : string :=
  PyStr.replace ".git" "" (PyStr.last_item (PyStr.split "/" repo_url)).

(** [output_dir / f"{repo_name}.arch.md"] *)
Definition output_file_of (output_dir : path) (repo_url : string) : path :=
  path_join output_dir (repo_name_of repo_url ++ ".arch.md").

(** [output_dir / f"clone_{repo_name}"] *)
Definition clone_dir_of (output_dir : path) (repo_url : string) : path :=
  path_join output_dir ("clone_" ++ repo_name_of repo_url).


(* ================================================================== *)
(** ** What the program reaches outside itself *)

(** The working directory, the two external commands and the two library
    functions whose results the program consumes.
    - [git_clone url existing] is [git clone --depth=1 url clone_dir] run
      through [subprocess.run] on a clone directory holding [existing]:
      it gives the entries the directory holds afterwards, and either the
      exception [subprocess.run] raised (timeout, no [git]) or the
      process's [(returncode, stderr)].
    - [curl api_key prompt] is the POST of the request built around
      [prompt]: the exception raised, or the process's [stdout].
    - [json_loads] is [json.loads]; [repr] is the builtin [repr].
    - [rmtree_leaves p d] is what [shutil.rmtree(p, ignore_errors=True)]
      leaves of the directory [d] it finds at [p]: [None] when the
      directory is gone, [Some] of what remains when something in it
      withstood the removal (a directory that may not be listed or
      written to, a file in use).  No error is reported either way.
    - [write_stops p text] says how writing [text] to the file opened at
      [p] goes: [None] when the text gets written, [Some (partial, e)]
      when the write raises [e] (text the encoding of the locale cannot
      hold, a full disk) and leaves [partial] in the file, which
      [open(mode='w')] had emptied. *)
Record Env := {
  cwd : path;
  git_clone : string -> list (string * node) -> list (string * node) * result (Z * string);
  curl : string -> string -> result string;
  json_loads : string -> result json;
  repr : json -> string;
  rmtree_leaves : path -> node -> option node;
  write_stops : path -> string -> option (string * exn)
}.

(** [p.write_text(text)] for a [str]: the file is opened with mode ['w'],
    which creates or empties it, before anything is written; a write that
    raises leaves the file with what had got there. *)
Definition write_text (env : Env) (p : path) (text : string) (fs : node)
  : node * result unit :=
  match write_stops env p text with
  | None =>
      match put_text p text fs with
      | Ok fs' => (fs', Ok tt)
      | Raise e => (fs, Raise e)
      end
  | Some (partial, e) =>
      match put_text p partial fs with
      | Ok fs' => (fs', Raise e)
      | Raise e' => (fs, Raise e')
      end
  end.

(** [shutil.rmtree(p, ignore_errors=True)]: called on a file it fails,
    silently, and the file stays. *)
Definition rmtree (env : Env) (p : path) (fs : node) : node :=
  update (fun n => match n with
                   | File _ => Some n
                   | Dir _ _ => rmtree_leaves env p n
                   end) p fs.

Definition NL : string := String "010"%char EmptyString.

(* ================================================================== *)
(** ** class SimpleInvestigator *)

Module SimpleInvestigator.

(** *** _build_file_tree (lines 128-155) *)

Definition IGNORED : list string :=
  [".git"; "node_modules"; "__pycache__"; "venv"; ".venv"; "dist"; "build"].

(** [item.name in [...]] *)
Definition ignored (name : string) : bool := existsb (String.eqb name) IGNORED.

(** The sort key [(not x.is_dir(), x.name)] and the order of such tuples:
    [False] before [True], then names by character code. *)
Definition sort_key (item : string * node) : bool * string :=
  (negb (is_dir (snd item)), fst item).

Definition key_le (a b : bool * string) : bool :=
  match fst a, fst b with
  | false, true => true
  | true, false => false
  | _, _ => String.leb (snd a) (snd b)
  end.

Fixpoint insert_sorted (x : string * node) (l : list (string * node))
  : list (string * node) :=
  match l with
  | [] => [x]
  | y :: l' =>
      if key_le (sort_key x) (sort_key y) then x :: l
      else y :: insert_sorted x l'
  end.

(** [sorted(items, key=...)]: a stable sort. *)
Definition sorted (items : list (string * node)) : list (string * node) :=
  fold_right insert_sorted [] items.

(** [enumerate(items)] *)
Definition enumerate {A} (items : list A) : list (nat * A) :=
  combine (seq 0 (List.length items)) items.

Definition current_prefix (is_last : bool) : string :=
  if is_last then "└── " else "├── ".

Definition next_prefix (is_last : bool) : string :=
  if is_last then "    " else "│   ".

(** One turn of the loop of lines 138-150 for the [i]-th of [count]
    items; [walk] is the recursive call. *)
Definition visit (walk : node -> string -> list string) (prefix : string)
    (count : nat) (entry : nat * (string * node)) : list string :=
  let '(i, item) := entry in
  if ignored (fst item) then []
  else
    let is_last := Nat.eqb i (count - 1) in
    (prefix ++ current_prefix is_last ++ fst item)
    :: (if is_dir (snd item)
        then walk (snd item) (prefix ++ next_prefix is_last)
        else []).

(** The lines [walk_dir(path, prefix, depth)] appends.  [levels] is
    [max_depth + 1 - depth], the number of levels the test
    [depth > max_depth] still lets through.  [walk_dir] is called on the
    root and on entries that are directories.  The [except] clause of
    line 151 also catches the [PermissionError] of [is_dir()] on an entry
    whose status cannot be read, and nothing of the directory is drawn
    then; the tree of the model holds no such entry. *)
Fixpoint walk_dir (levels : nat) (path : node) (prefix : string) : list string :=
  match levels with
  | O => []
  | S levels' =>
      match path with
      | Dir true children =>
          let items := sorted children in
          flat_map (visit (walk_dir levels') prefix (List.length items))
                   (enumerate items)
      | Dir false _ => []
      | File _ => []
      end
  end.

(** [walk_dir] where the status of the entries in [denied] cannot be
    read.  The sort key of line 137 calls [is_dir()] on every entry of
    the listing, ignored ones included, before anything of the directory
    is drawn; on an entry in [denied] it raises [PermissionError], and
    the [except] clause ends the walk of this directory. *)
Fixpoint walk_dir_stat (denied : string * node -> bool) (levels : nat)
    (path : node) (prefix : string) : list string :=
  match levels with
  | O => []
  | S levels' =>
      match path with
      | Dir true children =>
          if existsb denied children then []
          else
            let items := sorted children in
            flat_map (visit (walk_dir_stat denied levels') prefix (List.length items))
                     (enumerate items)
      | Dir false _ => []
      | File _ => []
      end
  end.

(** [iterdir()] raises [PermissionError] on an unlistable directory, which
    [walk_dir] catches; on the root it raises other errors when the root is
    missing or is a file, and those leave [_build_file_tree]. *)
Definition _build_file_tree (repo_dir : path) (fs : node) (max_depth : nat)
  : result string :=
  match lookup repo_dir fs with
  | None => Raise (FileNotFoundError repo_dir)
  | Some (File _) => Raise (NotADirectoryError repo_dir)
  | Some d => Ok (PyStr.join NL (walk_dir (S max_depth) d ""))
  end.

(** *** _read_key_files (lines 157-189) *)

Definition common_files : list string :=
  ["README.md"; "package.json"; "requirements.txt"; "pyproject.toml";
   "Cargo.toml"; ".github/workflows/*.yml"; ".github/workflows/*.yaml"].

Definition KEY_FILE_CAP : nat := 5000.

(** [Path(pattern)] as components, [Path(pattern).parent] and
    [Path(pattern).name] *)
Definition components (pattern : string) : path := PyStr.split "/" pattern.
Definition parent_of (pattern : string) : path := removelast (components pattern).
Definition name_of (pattern : string) : string := PyStr.last_item (components pattern).

(** The match [glob] makes between a pattern of literal characters and
    [*] and a name. *)
Fixpoint fnmatch (pat name : string) : bool :=
  match pat with
  | EmptyString => match name with EmptyString => true | _ => false end
  | String c pat' =>
      if Ascii.eqb c "*" then
        (fix star (n : string) : bool :=
           fnmatch pat' n
           || match n with
              | EmptyString => false
              | String _ n' => star n'
              end) name
      else match name with
           | String d name' => Ascii.eqb c d && fnmatch pat' name'
           | EmptyString => false
           end
  end.

(** [parent.glob(pat)]: the names of the matching entries, in listing
    order; nothing when [parent] is no directory or cannot be listed. *)
Definition glob (parent : path) (pat : string) (fs : node) : list string :=
  match lookup parent fs with
  | Some (Dir true children) => filter (fnmatch pat) (map fst children)
  | _ => []
  end.

(** [d[k] = v] on a dict kept in insertion order *)
Fixpoint dict_set (k v : string) (d : list (string * string)) : list (string * string) :=
  match d with
  | [] => [(k, v)]
  | (k', v') :: d' =>
      if String.eqb k' k then (k, v) :: d' else (k', v') :: dict_set k v d'
  end.

Fixpoint dict_get (k : string) (d : list (string * string)) : option string :=
  match d with
  | [] => None
  | (k', v) :: d' => if String.eqb k' k then Some v else dict_get k d'
  end.

(** [try: key_files[key] = file.read_text()[:5000]] / [except: pass] *)
Definition read_into (key : string) (file : path) (fs : node)
    (key_files : list (string * string)) : list (string * string) :=
  match read_text file fs with
  | Ok text => dict_set key (PyStr.slice_to KEY_FILE_CAP text) key_files
  | Raise _ => key_files
  end.

(** One turn of [for pattern in common_files] *)
Definition read_pattern (repo_dir : path) (fs : node)
    (key_files : list (string * string)) (pattern : string) : list (string * string) :=
  if PyStr.contains "*" pattern then
    let parent := (repo_dir ++ parent_of pattern)%list in
    if exists_ parent fs then
      fold_left
        (fun acc name =>
           read_into (PyStr.join "/" (path_join (parent_of pattern) name))
                     (path_join parent name) fs acc)
        (glob parent (name_of pattern) fs) key_files
    else key_files
  else
    let file_path := (repo_dir ++ components pattern)%list in
    if exists_ file_path fs then read_into pattern file_path fs key_files
    else key_files.

(** The dict [_read_key_files] returns, the status of every path it
    tests being readable. *)
Definition _read_key_files (repo_dir : path) (fs : node) : list (string * string) :=
  fold_left (read_pattern repo_dir fs) common_files [].

(** One turn of [for pattern in common_files] where the status of the
    paths in [denied] cannot be read.  The tests [parent.exists()] of
    line 175 and [file_path.exists()] of line 183 stand outside the [try]
    statements of lines 177 and 184: what they raise ends the loop.  A
    file that [glob] gives is not tested; where its status cannot be read
    [read_text()] raises, inside the [try] statement. *)
Definition read_pattern_stat (denied : path -> bool) (repo_dir : path) (fs : node)
    (key_files : list (string * string)) (pattern : string)
  : result (list (string * string)) :=
  if PyStr.contains "*" pattern then
    let parent := (repo_dir ++ parent_of pattern)%list in
    found <- path_exists denied parent fs ;;
    Ok (if found then
          fold_left
            (fun acc name =>
               if denied (path_join parent name) then acc
               else read_into (PyStr.join "/" (path_join (parent_of pattern) name))
                              (path_join parent name) fs acc)
            (glob parent (name_of pattern) fs) key_files
        else key_files)
  else
    let file_path := (repo_dir ++ components pattern)%list in
    found <- path_exists denied file_path fs ;;
    Ok (if found then read_into pattern file_path fs key_files else key_files).

(** The loop of lines 171-187 over [patterns], [key_files] being the dict
    so far. *)
Fixpoint read_patterns_stat (denied : path -> bool) (repo_dir : path) (fs : node)
    (patterns : list string) (key_files : list (string * string))
  : result (list (string * string)) :=
  match patterns with
  | [] => Ok key_files
  | pattern :: rest =>
      key_files <- read_pattern_stat denied repo_dir fs key_files pattern ;;
      read_patterns_stat denied repo_dir fs rest key_files
  end.

(** [_read_key_files] where the status of the paths in [denied] cannot be
    read: the dict, or the exception that leaves the function. *)
Definition _read_key_files_stat (denied : path -> bool) (repo_dir : path) (fs : node)
  : result (list (string * string)) :=
  read_patterns_stat denied repo_dir fs common_files [].

(** *** _call_claude_api (lines 191-262) *)

Fixpoint traverse {A B} (f : A -> result B) (l : list A) : result (list B) :=
  match l with
  | [] => Ok []
  | x :: l' => y <- f x ;; ys <- traverse f l' ;; Ok (y :: ys)
  end.

(** [f"\n### {filename}\n```\n{content}\n```"] *)
Definition key_file_part (entry : string * string) : string :=
  NL ++ "### " ++ fst entry ++ NL ++ "```" ++ NL ++ snd entry ++ NL ++ "```".

Definition analysis_request : list string :=
  [NL ++ "## Analysis Request";
   "Generate comprehensive architecture documentation covering:";
   "1. System Overview";
   "2. Key Components";
   "3. Data Flow";
   "4. Technology Stack";
   "5. Deployment Architecture";
   "6. Security Considerations"].

Definition investigation_header : string := NL ++ "## Specific Investigation Points".

(** [f"- {prompt.get('description', prompt.get('name', 'Unknown'))}"] *)
Definition investigation_point (env : Env) (prompt : json) : result string :=
  fallback <- Py.get prompt "name" (JStr "Unknown") ;;
  shown <- Py.get prompt "description" fallback ;;
  Ok ("- " ++ Py.str (repr env) shown).

(** Lines 202-206 *)
Definition header_parts (repo_name repo_type file_tree : string) : list string :=
  ["# Architecture Analysis for " ++ repo_name;
   NL ++ "Repository Type: " ++ repo_type;
   NL ++ "## File Structure" ++ NL ++ "```" ++ NL ++ file_tree ++ NL ++ "```"].

(** Lines 208-211 *)
Definition key_file_parts (key_files : list (string * string)) : list string :=
  match key_files with
  | [] => []
  | _ => (NL ++ "## Key Files") :: map key_file_part key_files
  end.

(** The list [prompt_parts] at line 227. *)
Definition prompt_parts (env : Env) (repo_name repo_type file_tree : string)
    (key_files : list (string * string)) (prompts : json) : result (list string) :=
  points <-
    (if Py.truthy prompts then
       first5 <- Py.slice_to 5 prompts ;;
       lines <- traverse (investigation_point env) first5 ;;
       Ok (investigation_header :: lines)
     else Ok []) ;;
  Ok (header_parts repo_name repo_type file_tree
      ++ key_file_parts key_files ++ analysis_request ++ points)%list.

(** The request file is a temporary file outside the tree of the model;
    the [finally] clause unlinks it on every path. *)
Definition _call_claude_api (env : Env) (api_key : string)
    (repo_name repo_type file_tree : string)
    (key_files : list (string * string)) (prompts : json) : result json :=
  parts <- prompt_parts env repo_name repo_type file_tree key_files prompts ;;
  let full_prompt := PyStr.join NL parts in
  stdout <- curl env api_key full_prompt ;;
  response_data <- json_loads env stdout ;;
  has_content <- Py.contains "content" response_data ;;
  nonempty <-
    (if has_content then
       content <- Py.getitem response_data "content" ;;
       n <- Py.len content ;;
       Ok (Nat.ltb 0 n)
     else Ok false) ;;
  if nonempty then
    content <- Py.getitem response_data "content" ;;
    first <- Py.getitem0 content ;;
    Py.getitem first "text"
  else
    Raise (Exn "Exception" ("Claude API error: " ++ Py.str (repr env) response_data)).

(** *** analyze_repository (lines 27-126) *)

Record AnalysisResult := {
  success : bool;
  repo_name : string;
  output_file : option path;
  error : option string
}.

(** The choices of [--repo-type], line 359. *)
Definition REPO_TYPES : list string :=
  ["backend"; "frontend"; "mobile"; "libraries"; "infra-as-code"; "shared"].

(** A name that [Path("prompts") / name] takes as one component. *)
Definition plain_name (name : string) : bool :=
  negb (PyStr.contains "/" name)
  && negb (existsb (String.eqb name) [""; "."; ".."]).

(** Lines 72-76, for a [repo_type] that is a plain name. *)
Definition prompts_file_of (env : Env) (repo_type : string) (fs : node) : path :=
  let prompts_dir := path_join (path_join (cwd env) "prompts") repo_type in
  let prompts_dir :=
    if negb (exists_ prompts_dir fs)
    then path_join (path_join (cwd env) "prompts") "shared"
    else prompts_dir in
  path_join prompts_dir "prompts.json".

(** Lines 71-83: the value of [prompts_config]. *)
Definition load_prompts_config (env : Env) (repo_type : string) (fs : node)
  : result json :=
  let prompts_file := prompts_file_of env repo_type fs in
  if exists_ prompts_file fs then
    text <- read_text prompts_file fs ;;
    prompts_config <- json_loads env text ;;
    (* the f-string of line 81 *)
    shown <- Py.get prompts_config "prompts" (JArr []) ;;
    Py.len shown ;;;
    Ok prompts_config
  else Ok (JObj [("prompts", JArr [])]).

(** Replace the entries of the directory at [p]. *)
Definition set_entries (p : path) (entries : list (string * node)) (fs : node) : node :=
  update (fun d => Some match d with
                        | Dir l _ => Dir l entries
                        | File _ => d
                        end) p fs.

Definition entries_at (p : path) (fs : node) : list (string * node) :=
  match lookup p fs with
  | Some (Dir _ children) => children
  | _ => []
  end.

(** The body of the [try] statement, lines 57-112: the file tree it
    leaves, and the result dict it returns or the exception it raises. *)
Definition try_body (env : Env) (api_key repo_url repo_type : string)
    (output_dir : path) (fs : node) : node * result AnalysisResult :=
  let repo_name := repo_name_of repo_url in
  let output_file := output_file_of output_dir repo_url in
  let clone_dir := clone_dir_of output_dir repo_url in
  let '(cloned, ran) := git_clone env repo_url (entries_at clone_dir fs) in
  let fs := set_entries clone_dir cloned fs in
  match
    (proc <- ran ;;
     (if negb (Z.eqb (fst proc) 0)
      then Raise (Exn "Exception" ("Git clone failed: " ++ snd proc))
      else Ok tt) ;;;
     prompts_config <- load_prompts_config env repo_type fs ;;
     file_tree <- _build_file_tree clone_dir fs 3 ;;
     let key_files := _read_key_files clone_dir fs in
     prompts <- Py.get prompts_config "prompts" (JArr []) ;;
     arch_doc <- _call_claude_api env api_key repo_name repo_type file_tree
                   key_files prompts ;;
     (* [write_text] tests its argument before it opens the file *)
     match arch_doc with
     | JStr text => Ok text
     | _ => Raise (TypeError ("data must be str, not " ++ type_name arch_doc))
     end)
  with
  | Ok text =>
      match write_text env output_file text fs with
      | (fs', Ok _) =>
          (fs', Ok {| success := true; repo_name := repo_name;
                      output_file := Some output_file; error := None |})
      | (fs', Raise e) => (fs', Raise e)
      end
  | Raise e => (fs, Raise e)
  end.

(** [analyze_repository]: the clone directory is made before the [try]
    statement is entered; [except Exception] turns what the body raises
    into a result; [finally] removes the clone directory. *)
Definition analyze_repository (env : Env) (api_key repo_url repo_type : string)
    (output_dir : path) (fs : node) : node * result AnalysisResult :=
  let repo_name := repo_name_of repo_url in
  let clone_dir := clone_dir_of output_dir repo_url in
  match mkdir clone_dir fs with
  | Raise e => (fs, Raise e)
  | Ok fs =>
      let '(fs, outcome) := try_body env api_key repo_url repo_type output_dir fs in
      let returned :=
        match outcome with
        | Ok r => r
        | Raise e =>
            {| success := false; repo_name := repo_name;
               output_file := None; error := Some (exn_str e) |}
        end in
      let fs := if exists_ clone_dir fs then rmtree env clone_dir fs else fs in
      (fs, Ok returned)
  end.

End SimpleInvestigator.

Import SimpleInvestigator.

(* ================================================================== *)
(** ** analyze_all_repositories (lines 265-310) *)

(** One entry of the mapping under ["repositories"] of the batch
    configuration. *)
Record RepoConfig := { url : string; type : string }.

(** The [for] loop of lines 290-296, [results] being the list so far. *)
Fixpoint analyze_each (env : Env) (api_key : string) (output_dir : path)
    (repos : list (string * RepoConfig)) (results : list AnalysisResult)
    (fs : node) : node * result (list AnalysisResult) :=
  match repos with
  | [] => (fs, Ok results)
  | (_, repo_config) :: rest =>
      match analyze_repository env api_key (url repo_config) (type repo_config)
              output_dir fs with
      | (fs', Ok result) =>
          analyze_each env api_key output_dir rest (results ++ [result])%list fs'
      | (fs', Raise e) => (fs', Raise e)
      end
  end.

(** From line 277 on, [repos] being the items of the mapping in its
    iteration order: the list [results] the summary is printed from. *)
Definition analyze_all_repositories (env : Env) (api_key : string)
    (repos : list (string * RepoConfig)) (output_dir : path) (fs : node)
  : node * result (list AnalysisResult) :=
  match mkdir output_dir fs with
  | Raise e => (fs, Raise e)
  | Ok fs => analyze_each env api_key output_dir repos [] fs
  end.

(* ================================================================== *)
(** ** Auxiliary definitions for the statements *)

(** The files [_read_key_files] tries to read, in order, each with the key
    it is recorded under: the pairs for which line 178 or line 185 is
    reached. *)
Definition matched_by (repo_dir : path) (fs : node) (pattern : string)
  : list (string * path) :=
  if PyStr.contains "*" pattern then
    let parent := (repo_dir ++ parent_of pattern)%list in
    if exists_ parent fs then
      map (fun name => (PyStr.join "/" (path_join (parent_of pattern) name),
                        path_join parent name))
          (glob parent (name_of pattern) fs)
    else []
  else
    let file_path := (repo_dir ++ components pattern)%list in
    if exists_ file_path fs then [(pattern, file_path)] else [].

Definition matched_files (repo_dir : path) (fs : node) : list (string * path) :=
  flat_map (matched_by repo_dir fs) common_files.

Definition record_file (fs : node) (key_files : list (string * string))
    (m : string * path)
  : list (string * string) :=
  read_into (fst m) (snd m) fs key_files.


(** What the section shows of one catalog entry, in the words of the
    specification: its description, or its name when it has no
    description (and [Unknown] when it has neither). *)
Definition described (fields : list (string * json)) : json :=
  match Py.item "description" fields with
  | Some d => d
  | None =>
      match Py.item "name" fields with
      | Some n => n
      | None => JStr "Unknown"
      end
  end.

Definition point_line (env : Env) (fields : list (string * json)) : string :=
  "- " ++ Py.str (repr env) (described fields).



(** A line of the tree: indentation, one unit per enclosing directory,
    then the connector and the name of the entry. *)
Fixpoint tree_line (indent : list bool) (is_last : bool) (name : string) : string :=
  match indent with
  | [] => current_prefix is_last ++ name
  | continued :: indent' => next_prefix continued ++ tree_line indent' is_last name
  end.

(* ================================================================== *)
(** ** Sample inputs *)

(** A repository with a short README, a workflow file and a workflow file
    that cannot be read. *)
Definition sample_repo : node :=
  Dir true
    [("README.md", File (Some "hello"));
     (".github", Dir true
        [("workflows", Dir true
            [("ci.yml", File (Some "on: push"));
             ("x.yaml", File None);
             ("notes.txt", File (Some "no"))])])].

(** A response of the model service with one text segment. *)
Definition sample_response : json :=
  JObj [("id", JStr "msg_1");
        ("content", JArr [JObj [("type", JStr "text"); ("text", JStr "# Architecture")]])].

(** An environment where [git clone] succeeds and leaves [sample_repo]. *)
Definition sample_env : Env :=
  {| cwd := [];
     git_clone := fun _ _ =>
       (match sample_repo with Dir _ entries => entries | File _ => [] end,
        Ok (0%Z, ""));
     curl := fun _ _ => Ok "{...}";
     json_loads := fun _ => Ok sample_response;
     repr := fun _ => "{...}";
     rmtree_leaves := fun _ => rm_where_listable;
     write_stops := fun _ _ => None |}.

(** A cloned repository whose [README.md] is a link into a directory that
    may not be searched: its status cannot be read, and it cannot be
    read. *)
Definition linked_repo : node :=
  Dir true [("README.md", File None); ("package.json", File (Some "{}"))].

Definition readme_denied (p : path) : bool :=
  match p with
  | [name] => String.eqb name "README.md"
  | _ => false
  end.


(** The same project directory as two runs may see it listed. *)
Definition sample_listing_1 : node :=
  Dir true
    [("src", Dir true [("main.py", File (Some "print()")); ("lib", Dir true [])]);
     ("README.md", File (Some "hello"));
     ("node_modules", Dir true [("left-pad", Dir true [])])].


(** An output directory in which a regular file has the name of the
    clone directory of [https://github.com/user/repo.git]. *)
Definition blocked_output : node :=
  Dir true [("temp", Dir true [("clone_repo", File (Some "notes"))])].

(** An output directory holding a clone directory left behind, with a
    directory inside that cannot be listed; [git clone] refuses a
    directory that is not empty. *)
Definition leftover_output : node :=
  Dir true
    [("temp", Dir true
        [("clone_repo", Dir true
            [("cache", Dir false [("pack", File (Some "data"))])])])].

Definition refusing_env : Env :=
  {| cwd := [];
     git_clone := fun _ existing =>
       (existing,
        Ok (128%Z, "fatal: destination path 'temp/clone_repo' already exists and is not an empty directory."));
     curl := fun _ _ => Ok "{...}";
     json_loads := fun _ => Ok sample_response;
     repr := fun _ => "{...}";
     rmtree_leaves := fun _ => rm_where_listable;
     write_stops := fun _ _ => None |}.

(** A batch of two repositories. *)
Definition sample_batch : list (string * RepoConfig) :=
  [("repo", {| url := "https://github.com/user/repo.git"; type := "backend" |});
   ("other", {| url := "https://github.com/user/other"; type := "frontend" |})].

(** A working directory where [prompts/backend] exists without a catalog
    and the shared catalog holds one entry. *)
Definition prompts_tree : node :=
  Dir true
    [("prompts", Dir true
        [("backend", Dir true []);
         ("shared", Dir true [("prompts.json", File (Some "{...}"))])])].

(** A working directory where [prompts/backend] is a regular file. *)
Definition prompts_tree_with_file : node :=
  Dir true
    [("prompts", Dir true
        [("backend", File (Some "see shared"));
         ("shared", Dir true [("prompts.json", File (Some "{...}"))])])].

Definition shared_catalog : json :=
  JObj [("prompts", JArr [JObj [("name", JStr "apis"); ("description", JStr "List the APIs")]])].

Definition catalog_env : Env :=
  {| cwd := [];
     git_clone := fun _ existing => (existing, Ok (0%Z, ""));
     curl := fun _ _ => Ok "{...}";
     json_loads := fun _ => Ok shared_catalog;
     repr := fun _ => "{...}";
     rmtree_leaves := fun _ => rm_where_listable;
     write_stops := fun _ _ => None |}.

(** The catalog file in the words of the specification: the one of the
    type, or the shared one when the catalog of the type does not
    exist. *)
Definition spec_prompts_file (env : Env) (repo_type : string) (fs : node) : path :=
  let type_catalog :=
    path_join (path_join (path_join (cwd env) "prompts") repo_type) "prompts.json" in
  if exists_ type_catalog fs then type_catalog
  else path_join (path_join (path_join (cwd env) "prompts") "shared") "prompts.json".

(** A project directory whose last entry in sorted order is ignored. *)
Definition venv_last : node :=
  Dir true
    [("venv", Dir true [("pyvenv.cfg", File (Some "home = /usr/bin"))]);
     ("src", Dir true [("main.py", File (Some "print()"))])].


(* ================================================================== *)
(** * The rest of the program *)

From Stdlib Require Import Sorted DecimalString.

(** The heading of line 209. *)
Definition key_files_heading : string := NL ++ "## Key Files".

(** [isinstance(v, dict)] *)
Definition is_dict (v : json) : bool :=
  match v with
  | JObj _ => true
  | _ => false
  end.

(* ================================================================== *)
(** ** The summary of the batch driver (lines 298-310) *)

(** [str(n)] for a count *)
Definition decimal (n : nat) : string := NilZero.string_of_uint (Nat.to_uint n).

(** [s * n] *)
Fixpoint times (s : string) (n : nat) : string :=
  match n with
  | O => EmptyString
  | S n' => s ++ times s n'
  end.

Definition rule : string := times "=" 60.

(** [f"{result['error']}"] *)
Definition shown_error (r : AnalysisResult) : string :=
  match error r with
  | Some message => message
  | None => "None"
  end.

(** [f"   - {result['repo_name']}: {result['error']}"] *)
Definition failure_line (r : AnalysisResult) : string :=
  "   - " ++ repo_name r ++ ": " ++ shown_error r.

(** What lines 299-310 print, one string for each call of [print]. *)
Definition summary (results : list AnalysisResult) : list string :=
  let successful := List.length (filter success results) in
  let failed := List.length results - successful in
  let counted (label : string) (n : nat) : string :=
    label ++ decimal n ++ "/" ++ decimal (List.length results) in
  let head : list string :=
    [NL ++ rule; "📊 ANALYSIS SUMMARY"; rule; counted "✅ Successful: " successful] in
  let failures : list string :=
    if Nat.ltb 0 failed
    then counted "❌ Failed: " failed
         :: flat_map (fun result =>
                        if negb (success result) then [failure_line result] else [])
                     results
    else [] in
  (head ++ failures ++ [(rule ++ NL)%string])%list.

(* ================================================================== *)
(** ** How a command ends *)

(** A command returns, leaves through [sys.exit(code)], or is left by an
    exception. *)
Inductive ended :=
| Returned
| Exited (code : Z)
| Raised (e : exn).

(* ================================================================== *)
(** ** analyze_one_repository (lines 313-335) *)

Definition analyze_one_repository (env : Env) (api_key repo_url repo_type : string)
    (output_dir : path) (fs : node) : node * ended :=
  match mkdir output_dir fs with
  | Raise e => (fs, Raised e)
  | Ok fs =>
      match analyze_repository env api_key repo_url repo_type output_dir fs with
      | (fs', Ok result) =>
          (fs', if negb (success result) then Exited 1 else Returned)
      | (fs', Raise e) => (fs', Raised e)
      end
  end.

(* ================================================================== *)
(** ** analyze_all_repositories on the configuration file (lines 265-296) *)

(** [analyze_repository] called with the values [repo_config["url"]] and
    [repo_config["type"]] as the configuration gives them.  A URL that is
    no string has no [split] (line 43, before the [try] statement).  A
    type that is no string passes until [Path("prompts") / repo_type] of
    line 72, which raises [TypeError] inside the [try] statement, after
    the clone. *)
Definition analyze_repository_any (env : Env) (api_key : string)
    (repo_url repo_type : json) (output_dir : path) (fs : node)
  : node * result AnalysisResult :=
  match repo_url with
  | JStr u =>
      match repo_type with
      | JStr t => analyze_repository env api_key u t output_dir fs
      | _ =>
          let clone_dir := clone_dir_of output_dir u in
          match mkdir clone_dir fs with
          | Raise e => (fs, Raise e)
          | Ok fs =>
              let '(cloned, ran) := git_clone env u (entries_at clone_dir fs) in
              let fs := set_entries clone_dir cloned fs in
              let raised :=
                match ran with
                | Raise e => e
                | Ok proc =>
                    if negb (Z.eqb (fst proc) 0)
                    then Exn "Exception" ("Git clone failed: " ++ snd proc)
                    else TypeError ("unsupported operand type(s) for /: 'PosixPath' and '"
                                    ++ type_name repo_type ++ "'")
                end in
              let fs := if exists_ clone_dir fs then rmtree env clone_dir fs else fs in
              (fs, Ok {| success := false; repo_name := repo_name_of u;
                         output_file := None; error := Some (exn_str raised) |})
          end
      end
  | _ => (fs, Raise (AttributeError repo_url "split"))
  end.

(** The [for] loop of lines 290-296 over [repos.items()]. *)
Fixpoint analyze_items (env : Env) (api_key : string) (output_dir : path)
    (items : list (string * json)) (results : list AnalysisResult) (fs : node)
  : node * result (list AnalysisResult) :=
  match items with
  | [] => (fs, Ok results)
  | (_, repo_config) :: rest =>
      match (repo_url <- Py.getitem repo_config "url" ;;
             repo_type <- Py.getitem repo_config "type" ;;
             Ok (repo_url, repo_type)) with
      | Raise e => (fs, Raise e)
      | Ok (repo_url, repo_type) =>
          match analyze_repository_any env api_key repo_url repo_type output_dir fs with
          | (fs', Ok result) =>
              analyze_items env api_key output_dir rest (results ++ [result])%list fs'
          | (fs', Raise e) => (fs', Raise e)
          end
      end
  end.

(** [analyze_all_repositories(config_path, output_dir, key)] up to line
    296: the list [results], which lines 298-310 then print as
    [summary results]. *)
Definition analyze_all_from_config_file (env : Env) (api_key : string)
    (config_path output_dir : path) (fs : node)
  : node * result (list AnalysisResult) :=
  match (text <- read_text config_path fs ;;
         config <- json_loads env text ;;
         repos <- Py.get config "repositories" (JObj []) ;;
         Py.len repos ;;;
         Ok repos) with
  | Raise e => (fs, Raise e)
  | Ok repos =>
      match mkdir output_dir fs with
      | Raise e => (fs, Raise e)
      | Ok fs =>
          match repos with
          | JObj items => analyze_items env api_key output_dir items [] fs
          | _ => (fs, Raise (AttributeError repos "items"))
          end
      end
  end.

(* ================================================================== *)
(** ** main (lines 338-386) *)

(** What [parser.parse_args()] hands over: one of the two commands with
    its options. *)
Inductive Args :=
| AnalyzeAll (config output_dir : path)
| AnalyzeOne (repo_url repo_type : string) (output_dir : path).

(** How [parser.parse_args()] of line 364 ends: with the arguments, or
    through [sys.exit] from inside [argparse], with status 2 after a
    command line it does not accept (no command, an option missing, a
    [--repo-type] outside the six choices) and status 0 after [--help]. *)
Inductive parsed :=
| Parsed (args : Args)
| ParserExit (code : Z).

(** [main]; [parse_args] is how [parser.parse_args()] ended on the
    command line, [getenv_key] is [os.getenv('ANTHROPIC_API_KEY')]. *)
Definition main (env : Env) (parse_args : parsed) (getenv_key : option string)
    (fs : node) : node * ended :=
  match parse_args with
  | ParserExit code => (fs, Exited code)
  | Parsed args =>
      match getenv_key with
      | None => (fs, Exited 1)
      | Some anthropic_api_key =>
          if String.eqb anthropic_api_key EmptyString then (fs, Exited 1)
          else
            match args with
            | AnalyzeAll config output_dir =>
                match analyze_all_from_config_file env anthropic_api_key config
                        output_dir fs with
                | (fs', Ok _) => (fs', Returned)
                | (fs', Raise e) => (fs', Raised e)
                end
            | AnalyzeOne repo_url repo_type output_dir =>
                analyze_one_repository env anthropic_api_key repo_url repo_type
                  output_dir fs
            end
      end
  end.

(** The entry of a configuration for a repository given by strings. *)
Definition config_entry (entry : string * RepoConfig) : string * json :=
  (fst entry,
   JObj [("url", JStr (url (snd entry))); ("type", JStr (type (snd entry)))]).

(** A configuration file for [sample_batch]. *)
Definition batch_config : json :=
  JObj [("repositories", JObj (map config_entry sample_batch))].

Definition batch_env : Env :=
  {| cwd := [];
     git_clone := git_clone sample_env;
     curl := curl sample_env;
     json_loads := fun text =>
       if String.eqb text "config" then Ok batch_config else Ok sample_response;
     repr := repr sample_env;
     rmtree_leaves := rmtree_leaves sample_env;
     write_stops := write_stops sample_env |}.

Definition batch_tree : node :=
  Dir true [("repos.json", File (Some "config"))].


(* ================================================================== *)
(** * Properties *)

(** ** Facts about strings *)

Section StringFacts.

Lemma append_empty_r (s : string) : s ++ "" = s.
Proof. induction s as [|c s IH]; simpl; [reflexivity | now rewrite IH]. Qed.

Lemma append_assoc (a b c : string) : (a ++ b) ++ c = a ++ (b ++ c).
Proof. induction a as [|x a IH]; simpl; [reflexivity | now rewrite IH]. Qed.

Lemma length_append (a b : string) :
  String.length (a ++ b) = String.length a + String.length b.
Proof. induction a as [|x a IH]; simpl; [reflexivity | now rewrite IH]. Qed.

Lemma substring_0_all (s : string) (n : nat) :
  String.length s <= n -> substring 0 n s = s.
Proof.
  revert n; induction s as [|c s IH]; intros [|n] H; simpl in *;
    try reflexivity; try lia.
  now rewrite IH by lia.
Qed.

Lemma length_substring_0 (s : string) (n : nat) :
  n <= String.length s -> String.length (substring 0 n s) = n.
Proof.
  revert n; induction s as [|c s IH]; intros [|n] H; simpl in *;
    try reflexivity; try lia.
  now rewrite IH by lia.
Qed.

Lemma split_not_nil (sep : ascii) (s : string) : PyStr.split sep s <> [].
Proof.
  destruct s as [|c s]; simpl; [discriminate|].
  destruct (Ascii.eqb c sep); [discriminate|].
  destruct (PyStr.split sep s); discriminate.
Qed.

(** Splitting at a separator that is known to be there. *)
Lemma split_app (sep : ascii) (pre seg : string) :
  PyStr.split sep (pre ++ String sep seg)
  = (PyStr.split sep pre ++ PyStr.split sep seg)%list.
Proof.
  induction pre as [|c pre IH]; simpl.
  - now rewrite Ascii.eqb_refl.
  - destruct (Ascii.eqb c sep); rewrite IH; [reflexivity|].
    pose proof (split_not_nil sep pre) as Hne.
    destruct (PyStr.split sep pre) as [|h t]; [contradiction | reflexivity].
Qed.

Lemma last_item_app (l1 l2 : list string) :
  l2 <> [] -> PyStr.last_item (l1 ++ l2)%list = PyStr.last_item l2.
Proof.
  intros Hne. unfold PyStr.last_item.
  induction l1 as [|x l1 IH]; [reflexivity|].
  simpl. destruct (l1 ++ l2)%list eqn:E; [|exact IH].
  apply app_eq_nil in E. tauto.
Qed.

Lemma contains_cons (sub : string) (c : ascii) (s : string) :
  PyStr.contains sub (String c s)
  = PyStr.startswith sub (String c s) || PyStr.contains sub s.
Proof. reflexivity. Qed.

Lemma contains_char_cons (c d : ascii) (s : string) :
  PyStr.contains (String c "") (String d s)
  = Ascii.eqb c d || PyStr.contains (String c "") s.
Proof.
  simpl. now rewrite andb_true_r.
Qed.

Lemma contains_char_empty (c : ascii) : PyStr.contains (String c "") "" = false.
Proof. reflexivity. Qed.

Lemma contains_char_app (c : ascii) (a b : string) :
  PyStr.contains (String c "") (a ++ b)
  = PyStr.contains (String c "") a || PyStr.contains (String c "") b.
Proof.
  induction a as [|d a IH].
  - reflexivity.
  - change (String d a ++ b) with (String d (a ++ b)).
    rewrite !contains_char_cons, IH. now rewrite orb_assoc.
Qed.

Lemma split_no_sep (sep : ascii) (s : string) :
  PyStr.contains (String sep "") s = false -> PyStr.split sep s = [s].
Proof.
  induction s as [|c s IH]; [reflexivity|].
  rewrite contains_char_cons. intros H.
  apply orb_false_iff in H as [Hc Hs].
  simpl. rewrite Ascii.eqb_sym, Hc, (IH Hs). reflexivity.
Qed.

(** The last segment of a URL. *)
Lemma last_segment (pre seg : string) :
  PyStr.contains "/" seg = false ->
  PyStr.last_item (PyStr.split "/" seg) = seg /\
  PyStr.last_item (PyStr.split "/" (pre ++ "/" ++ seg)) = seg.
Proof.
  intros H. rewrite (split_no_sep "/" seg H). split; [reflexivity|].
  change ("/" ++ seg) with (String "/" seg).
  rewrite split_app, (split_no_sep "/" seg H).
  now rewrite last_item_app by discriminate.
Qed.

(** An occurrence of [.git] that begins inside [w] lies inside [w]: it
    cannot run over into a following [.git]. *)
Lemma dot_git_no_overlap (c : ascii) (w rest : string) :
  PyStr.startswith ".git" (String c w ++ ".git" ++ rest) = true ->
  PyStr.startswith ".git" (String c w) = true.
Proof.
  destruct w as [|c2 [|c3 [|c4 w]]]; simpl;
    repeat match goal with
           | |- context [Ascii.eqb ?a ?b] =>
               destruct (Ascii.eqb_spec a b); subst; simpl
           end; congruence.
Qed.

Lemma replace_dot_git_piece (w rest : string) :
  PyStr.contains ".git" w = false ->
  PyStr.replace ".git" "" (w ++ ".git" ++ rest) = w ++ PyStr.replace ".git" "" rest.
Proof.
  unfold PyStr.replace.
  induction w as [|c w IH]; intros H.
  - reflexivity.
  - rewrite contains_cons in H. apply orb_false_iff in H as [Hhere Hlater].
    change (PyStr.replace_from 0 ".git" "" (String c w ++ ".git" ++ rest))
      with (if PyStr.startswith ".git" (String c w ++ ".git" ++ rest)
            then "" ++ PyStr.replace_from 3 ".git" "" (w ++ ".git" ++ rest)
            else String c (PyStr.replace_from 0 ".git" "" (w ++ ".git" ++ rest))).
    destruct (PyStr.startswith ".git" (String c w ++ ".git" ++ rest)) eqn:E.
    + apply dot_git_no_overlap in E. congruence.
    + rewrite (IH Hlater). reflexivity.
Qed.

Lemma replace_dot_git_free (w : string) :
  PyStr.contains ".git" w = false -> PyStr.replace ".git" "" w = w.
Proof.
  unfold PyStr.replace.
  induction w as [|c w IH]; intros H; [reflexivity|].
  rewrite contains_cons in H. apply orb_false_iff in H as [Hhere Hlater].
  change (PyStr.replace_from 0 ".git" "" (String c w))
    with (if PyStr.startswith ".git" (String c w)
          then "" ++ PyStr.replace_from 3 ".git" "" w
          else String c (PyStr.replace_from 0 ".git" "" w)).
  rewrite Hhere, (IH Hlater). reflexivity.
Qed.

(** [replace('.git', '')] on a string cut at all its occurrences of
    [.git] joins the pieces. *)
Lemma replace_dot_git_join (pieces : list string) :
  Forall (fun w => PyStr.contains ".git" w = false) pieces ->
  PyStr.replace ".git" "" (PyStr.join ".git" pieces) = PyStr.join "" pieces.
Proof.
  unfold PyStr.join.
  induction 1 as [|w l Hw Hl IH]; [reflexivity|].
  destruct l as [|w' l].
  - simpl. now apply replace_dot_git_free.
  - change (String.concat ".git" (w :: w' :: l))
      with (w ++ ".git" ++ String.concat ".git" (w' :: l)).
    change (String.concat "" (w :: w' :: l))
      with (w ++ "" ++ String.concat "" (w' :: l)).
    rewrite replace_dot_git_piece by assumption. now rewrite IH.
Qed.

Lemma contains_slash_join (pieces : list string) :
  Forall (fun w => PyStr.contains "/" w = false) pieces ->
  PyStr.contains "/" (PyStr.join ".git" pieces) = false.
Proof.
  unfold PyStr.join.
  induction 1 as [|w l Hw Hl IH]; [reflexivity|].
  destruct l as [|w' l]; [exact Hw|].
  change (String.concat ".git" (w :: w' :: l))
    with (w ++ ".git" ++ String.concat ".git" (w' :: l)).
  rewrite !contains_char_app, Hw, IH. reflexivity.
Qed.

Lemma startswith_split (p s : string) :
  PyStr.startswith p s = true -> exists rest, s = p ++ rest.
Proof.
  revert s. induction p as [|a p IH]; intros s H.
  - now exists s.
  - destruct s as [|b s]; [discriminate|].
    cbn [PyStr.startswith] in H. apply andb_true_iff in H as [Hab Hps].
    apply Ascii.eqb_eq in Hab. subst b.
    destruct (IH s Hps) as (rest & ->). now exists rest.
Qed.

Lemma startswith_append (p s t : string) :
  PyStr.startswith p s = true -> PyStr.startswith p (s ++ t) = true.
Proof.
  intros H. destruct (startswith_split p s H) as (rest & ->).
  rewrite append_assoc. clear H.
  induction p as [|a p IH]; [reflexivity|].
  cbn [append PyStr.startswith]. now rewrite Ascii.eqb_refl, IH.
Qed.

Lemma join_cons (sep w : string) (pieces : list string) :
  pieces <> [] ->
  PyStr.join sep (w :: pieces) = w ++ sep ++ PyStr.join sep pieces.
Proof. destruct pieces; [congruence | reflexivity]. Qed.

(** Every string is cut at its occurrences of [.git] into pieces that
    hold none. *)
Lemma dot_git_pieces (s : string) :
  exists pieces,
    pieces <> []
    /\ s = PyStr.join ".git" pieces
    /\ Forall (fun w => PyStr.contains ".git" w = false) pieces.
Proof.
  remember (String.length s) as n eqn:Hn.
  assert (Hle : String.length s <= n) by lia. clear Hn.
  revert s Hle. induction n as [|n IH]; intros s Hle.
  - destruct s; [|simpl in Hle; lia].
    exists [""]. repeat split; [discriminate | repeat constructor].
  - destruct s as [|c s].
    + exists [""]. repeat split; [discriminate | repeat constructor].
    + destruct (PyStr.startswith ".git" (String c s)) eqn:Hhere.
      * destruct (startswith_split _ _ Hhere) as (rest & Hrest).
        destruct (IH rest) as (pieces & Hne & -> & Hfree).
        { apply (f_equal String.length) in Hrest.
          rewrite length_append in Hrest. simpl in Hrest, Hle. lia. }
        exists ("" :: pieces). split; [discriminate|]. split.
        -- now rewrite join_cons.
        -- constructor; [reflexivity | exact Hfree].
      * destruct (IH s) as (pieces & Hne & -> & Hfree); [simpl in Hle; lia|].
        destruct pieces as [|h t]; [congruence|].
        exists (String c h :: t). split; [discriminate|]. split.
        -- destruct t; reflexivity.
        -- inversion Hfree as [|? ? Hh Ht]; subst.
           constructor; [|exact Ht].
           rewrite contains_cons, Hh, orb_false_r.
           destruct (PyStr.startswith ".git" (String c h)) eqn:E; [|reflexivity].
           rewrite <- Hhere. symmetry.
           destruct t as [|h' t]; [exact E|].
           change (PyStr.join ".git" (h :: h' :: t))
             with (h ++ ".git" ++ PyStr.join ".git" (h' :: t)).
           change (String c (h ++ ".git" ++ PyStr.join ".git" (h' :: t)))
             with (String c h ++ ".git" ++ PyStr.join ".git" (h' :: t)).
           now apply startswith_append.
Qed.

(** Every string is free of [/] or ends in a [/] and a segment free of
    it. *)
Lemma last_slash (s : string) :
  PyStr.contains "/" s = false
  \/ exists pre seg, s = pre ++ "/" ++ seg /\ PyStr.contains "/" seg = false.
Proof.
  induction s as [|c s IH]; [now left|].
  destruct IH as [Hfree | (pre & seg & -> & Hseg)].
  - destruct (Ascii.eqb_spec "/" c) as [<-|Hc].
    + right. exists "", s. now split.
    + left. rewrite contains_char_cons, Hfree.
      apply Ascii.eqb_neq in Hc. now rewrite Hc.
  - right. exists (String c pre), seg. now split.
Qed.

Lemma pieces_without_slash (pieces : list string) :
  PyStr.contains "/" (PyStr.join ".git" pieces) = false ->
  Forall (fun w => PyStr.contains "/" w = false) pieces.
Proof.
  induction pieces as [|w l IH]; [constructor|].
  destruct l as [|w' l].
  - intros H. now repeat constructor.
  - change (PyStr.join ".git" (w :: w' :: l))
      with (w ++ ".git" ++ PyStr.join ".git" (w' :: l)).
    rewrite !contains_char_app. intros H.
    apply orb_false_iff in H as [Hw H].
    apply orb_false_iff in H as [_ H].
    constructor; [exact Hw | now apply IH].
Qed.

End StringFacts.

(* ================================================================== *)
(** ** The repository name and the artifact path *)

(** C10.  Every URL is, or ends in a [/] and, a last segment cut at all
    its occurrences of [.git] into pieces (no piece contains [.git] or
    [/]); and however it is so cut, the repository name is the pieces put
    together, every [.git] excised wherever it stood, and the artifact
    path is [<output-dir>/<name>.arch.md]. *)
Theorem repo_name_excises_every_dot_git :
  (forall repo_url : string,
      exists pre pieces,
        Forall (fun w => PyStr.contains ".git" w = false) pieces
        /\ Forall (fun w => PyStr.contains "/" w = false) pieces
        /\ (repo_url = PyStr.join ".git" pieces
            \/ repo_url = pre ++ "/" ++ PyStr.join ".git" pieces))
  /\ forall (pre : string) (pieces : list string) (output_dir : path)
            (repo_url : string),
      Forall (fun w => PyStr.contains ".git" w = false) pieces ->
      Forall (fun w => PyStr.contains "/" w = false) pieces ->
      repo_url = PyStr.join ".git" pieces \/
      repo_url = pre ++ "/" ++ PyStr.join ".git" pieces ->
      repo_name_of repo_url = PyStr.join "" pieces /\
      output_file_of output_dir repo_url
      = path_join output_dir (PyStr.join "" pieces ++ ".arch.md").
Proof.
  split.
  - intros repo_url.
    destruct (last_slash repo_url) as [Hfree | (pre & seg & -> & Hseg)].
    + destruct (dot_git_pieces repo_url) as (pieces & _ & Heq & Hgit).
      exists "", pieces. split; [exact Hgit|]. split; [|now left].
      apply pieces_without_slash. now rewrite <- Heq.
    + destruct (dot_git_pieces seg) as (pieces & _ & Heq & Hgit).
      exists pre, pieces. split; [exact Hgit|]. split; [|right; now rewrite Heq].
      apply pieces_without_slash. now rewrite <- Heq.
  - intros pre pieces output_dir repo_url Hgit Hslash Hurl.
    assert (Hname : repo_name_of repo_url = PyStr.join "" pieces).
    { unfold repo_name_of.
      pose proof (last_segment pre _ (contains_slash_join pieces Hslash)) as [H1 H2].
      destruct Hurl as [-> | ->]; [rewrite H1 | rewrite H2];
        now apply replace_dot_git_join. }
    split; [exact Hname|].
    unfold output_file_of. now rewrite Hname.
Qed.

(** The URL [https://github.com/user/my.github-tools]: the [.git] in the
    middle of the last segment goes. *)
Lemma repo_name_excises_every_dot_git_witness :
  repo_name_of "https://github.com/user/my.github-tools" = "myhub-tools" /\
  output_file_of ["temp"] "https://github.com/user/my.github-tools"
  = ["temp"; "myhub-tools.arch.md"].
Proof.
  apply (proj2 repo_name_excises_every_dot_git
           "https://github.com/user" ["my"; "hub-tools"] ["temp"]
           "https://github.com/user/my.github-tools").
  - repeat constructor.
  - repeat constructor.
  - right. reflexivity.
Defined.

(* ================================================================== *)
(** ** Key files *)

Section KeyFiles.

Variables (repo_dir : path) (fs : node).

Lemma read_pattern_matched (key_files : list (string * string)) (pattern : string) :
  read_pattern repo_dir fs key_files pattern
  = fold_left (record_file fs) (matched_by repo_dir fs pattern) key_files.
Proof.
  unfold read_pattern, matched_by.
  destruct (PyStr.contains "*" pattern).
  - destruct (exists_ _ fs); [|reflexivity].
    generalize (glob (repo_dir ++ parent_of pattern)%list (name_of pattern) fs).
    intros names. revert key_files.
    induction names as [|n names IH]; intros key_files; [reflexivity|].
    simpl. apply IH.
  - destruct (exists_ _ fs); reflexivity.
Qed.

Lemma fold_left_flat_map {A B C} (f : A -> C -> A) (g : B -> list C)
    (l : list B) (a : A) :
  fold_left f (flat_map g l) a = fold_left (fun acc x => fold_left f (g x) acc) l a.
Proof.
  revert a; induction l as [|x l IH]; intros a; [reflexivity|].
  simpl. now rewrite fold_left_app, IH.
Qed.

Lemma read_key_files_matched :
  _read_key_files repo_dir fs = fold_left (record_file fs) (matched_files repo_dir fs) [].
Proof.
  unfold _read_key_files, matched_files.
  rewrite fold_left_flat_map.
  generalize (@nil (string * string)).
  induction common_files as [|p ps IH]; intros acc; [reflexivity|].
  simpl. rewrite read_pattern_matched. apply IH.
Qed.

(** Where a matched file lies and what its key is. *)
Lemma matched_files_inv (key : string) (file : path) :
  In (key, file) (matched_files repo_dir fs) ->
  (In key ["README.md"; "package.json"; "requirements.txt"; "pyproject.toml";
           "Cargo.toml"]
   /\ file = (repo_dir ++ [key])%list)
  \/ (exists name, key = ".github/workflows/" ++ name
                   /\ file = (repo_dir ++ [".github"; "workflows"; name])%list).
Proof.
  unfold matched_files. rewrite in_flat_map.
  intros (pattern & Hp & Hin).
  unfold matched_by in Hin.
  simpl in Hp.
  destruct Hp as [<-|[<-|[<-|[<-|[<-|[<-|[<-|[]]]]]]]];
    match type of Hin with
    | context [PyStr.contains "*" ?p] =>
        let b := eval vm_compute in (PyStr.contains "*" p) in
        change (PyStr.contains "*" p) with b in Hin;
        let c := eval vm_compute in (components p) in
        change (components p) with c in Hin;
        let d := eval vm_compute in (parent_of p) in
        change (parent_of p) with d in Hin
    end; cbv iota in Hin.
  1-5: left; destruct (exists_ _ fs); [|contradiction];
       destruct Hin as [Heq|[]]; inversion Heq; subst; simpl; tauto.
  1-2: right; destruct (exists_ _ fs); [|contradiction];
       apply in_map_iff in Hin as (name & Heq & _); inversion Heq; subst;
       exists name; split; [reflexivity|];
       unfold path_join; now rewrite <- app_assoc.
Qed.

(** The key tells the file. *)
Lemma matched_files_functional (key : string) (file1 file2 : path) :
  In (key, file1) (matched_files repo_dir fs) -> In (key, file2) (matched_files repo_dir fs) -> file1 = file2.
Proof.
  intros H1 H2.
  apply matched_files_inv in H1, H2.
  destruct H1 as [[Hk1 ->]|(n1 & Hk1 & ->)], H2 as [[Hk2 ->]|(n2 & Hk2 & ->)].
  - reflexivity.
  - subst key. simpl in Hk1.
    destruct Hk1 as [H|[H|[H|[H|[H|[]]]]]]; discriminate H.
  - subst key. simpl in Hk2.
    destruct Hk2 as [H|[H|[H|[H|[H|[]]]]]]; discriminate H.
  - subst key. simpl in Hk2. inversion Hk2. reflexivity.
Qed.

End KeyFiles.

Lemma dict_get_set (k k' v : string) (d : list (string * string)) :
  dict_get k (dict_set k' v d) = if String.eqb k' k then Some v else dict_get k d.
Proof.
  induction d as [|[k0 v0] d IH]; simpl.
  - reflexivity.
  - destruct (String.eqb_spec k0 k') as [->|Hne]; simpl.
    + destruct (String.eqb k' k); reflexivity.
    + rewrite IH. destruct (String.eqb_spec k' k) as [->|Hne'].
      * apply String.eqb_neq in Hne. now rewrite Hne.
      * reflexivity.
Qed.

Section KeyFileRecords.

Variables (fs : node) (key : string) (file : path).

(** Later turns of the loop write under [key] only what [file] holds. *)
Lemma record_files_keep (l : list (string * path)) (acc : list (string * string))
    (v : option string) :
  (forall f, In (key, f) l -> f = file) ->
  (forall k f, In (k, f) l -> k = key ->
               match read_text f fs with
               | Ok text => v = Some (PyStr.slice_to KEY_FILE_CAP text)
               | Raise _ => True
               end) ->
  dict_get key acc = v ->
  dict_get key (fold_left (record_file fs) l acc) = v.
Proof.
  revert acc. induction l as [|[k f] l IH]; intros acc Hfun Hsame Hacc.
  - exact Hacc.
  - simpl. apply IH.
    + intros f' Hin. apply Hfun. now right.
    + intros k' f' Hin. apply Hsame. now right.
    + unfold record_file, read_into. simpl.
      destruct (read_text f fs) as [text|e] eqn:E; [|exact Hacc].
      rewrite dict_get_set.
      destruct (String.eqb_spec k key) as [->|Hne]; [|exact Hacc].
      specialize (Hsame key f (or_introl eq_refl) eq_refl).
      rewrite E in Hsame. now symmetry.
Qed.

Lemma record_files_readable (l : list (string * path)) (acc : list (string * string))
    (text : string) :
  (forall f, In (key, f) l -> f = file) ->
  In (key, file) l ->
  read_text file fs = Ok text ->
  dict_get key (fold_left (record_file fs) l acc)
  = Some (PyStr.slice_to KEY_FILE_CAP text).
Proof.
  revert acc. induction l as [|[k f] l IH]; intros acc Hfun Hin Hread.
  - destruct Hin.
  - simpl.
    assert (Hrest : forall k' f', In (k', f') l -> k' = key ->
              match read_text f' fs with
              | Ok t => Some (PyStr.slice_to KEY_FILE_CAP text)
                        = Some (PyStr.slice_to KEY_FILE_CAP t)
              | Raise _ => True
              end).
    { intros k' f' Hin' ->. rewrite (Hfun f' (or_intror Hin')), Hread. reflexivity. }
    destruct Hin as [Heq|Hin].
    + inversion Heq; subst k f.
      apply record_files_keep; [intros f' H'; apply Hfun; now right | exact Hrest |].
      unfold record_file, read_into. simpl. rewrite Hread, dict_get_set.
      now rewrite String.eqb_refl.
    + apply IH; [intros f' H'; apply Hfun; now right | exact Hin | exact Hread].
Qed.

Lemma record_files_unreadable (l : list (string * path)) (e : exn) :
  (forall f, In (key, f) l -> f = file) ->
  read_text file fs = Raise e ->
  dict_get key (fold_left (record_file fs) l []) = None.
Proof.
  intros Hfun Hread.
  apply record_files_keep; [exact Hfun | | reflexivity].
  intros k f Hin ->. rewrite (Hfun f Hin), Hread. exact I.
Qed.

End KeyFileRecords.

(** The truncation law.  For every key file the allow-list matches, in a
    run whose existence tests answer: when the file can be read, what is
    recorded under its key is its first 5000 characters, which is exactly
    5000 characters of a longer file and the whole of a file of at most
    5000; when it cannot be read, nothing is recorded under its key. *)
Lemma key_files_truncated_or_skipped :
  forall (repo_dir : path) (fs : node) (key : string) (file : path),
    In (key, file) (matched_files repo_dir fs) ->
    match read_text file fs with
    | Ok text =>
        exists recorded,
          dict_get key (_read_key_files repo_dir fs) = Some recorded
          /\ recorded = PyStr.slice_to 5000 text
          /\ (5000 < String.length text -> String.length recorded = 5000)
          /\ (String.length text <= 5000 -> recorded = text)
    | Raise _ => dict_get key (_read_key_files repo_dir fs) = None
    end.
Proof.
  intros repo_dir fs key file Hin.
  rewrite read_key_files_matched.
  assert (Hfun : forall f, In (key, f) (matched_files repo_dir fs) -> f = file).
  { intros f Hf. exact (matched_files_functional repo_dir fs key f file Hf Hin). }
  destruct (read_text file fs) as [text|e] eqn:Hread.
  - exists (PyStr.slice_to 5000 text). split; [|split; [reflexivity|split]].
    + exact (record_files_readable fs key file _ [] text Hfun Hin Hread).
    + intros Hlong. apply length_substring_0. lia.
    + intros Hshort. now apply substring_0_all.
  - exact (record_files_unreadable fs key file _ e Hfun Hread).
Qed.

(** Where the status of every path can be read, the loop runs to its end
    and returns the dict of [_read_key_files]. *)
Lemma read_key_files_stat_answers (repo_dir : path) (fs : node) :
  _read_key_files_stat (fun _ => false) repo_dir fs
  = Ok (_read_key_files repo_dir fs).
Proof.
  unfold _read_key_files_stat, _read_key_files.
  generalize (@nil (string * string)).
  induction common_files as [|pattern rest IH]; intros key_files; [reflexivity|].
  cbn [read_patterns_stat fold_left].
  assert (Hturn : read_pattern_stat (fun _ => false) repo_dir fs key_files pattern
                  = Ok (read_pattern repo_dir fs key_files pattern)).
  { unfold read_pattern_stat, read_pattern, path_exists.
    destruct (PyStr.contains "*" pattern); reflexivity. }
  rewrite Hturn. cbn [Py.bind]. apply IH.
Qed.

(** An existence test that raises ends [_read_key_files] with its
    exception, whatever was recorded before: the first pattern whose test
    raises decides. *)
Lemma read_patterns_stat_raises (denied : path -> bool) (repo_dir : path) (fs : node)
    (pattern : string) (rest : list string) (key_files : list (string * string)) :
  PyStr.contains "*" pattern = false ->
  denied (repo_dir ++ components pattern)%list = true ->
  read_patterns_stat denied repo_dir fs (pattern :: rest) key_files
  = Raise (PermissionError (repo_dir ++ components pattern)%list).
Proof.
  intros Hplain Hdenied. cbn [read_patterns_stat].
  unfold read_pattern_stat, path_exists. now rewrite Hplain, Hdenied.
Qed.

(** C7.  The tests [file_path.exists()] and [parent.exists()] stand
    outside the [try] statements.  In a cloned repository whose
    [README.md] is a link into a directory that may not be searched,
    [exists()] raises [PermissionError] at the first pattern, and the
    exception leaves [_read_key_files]: the file is not skipped, and no
    dict is returned. *)
Theorem exists_error_leaves_read_key_files :
  _read_key_files_stat readme_denied [] linked_repo
  = Raise (PermissionError ["README.md"]).
Proof. reflexivity. Qed.

(** What the allow-list matches: the five fixed names where they exist,
    and the entries of [.github/workflows] whose names [glob] accepts. *)
Lemma matched_fixed (repo_dir : path) (fs : node) (p : string) :
  In p ["README.md"; "package.json"; "requirements.txt"; "pyproject.toml";
        "Cargo.toml"] ->
  exists_ (repo_dir ++ [p])%list fs = true ->
  In (p, (repo_dir ++ [p])%list) (matched_files repo_dir fs).
Proof.
  intros Hp Hex. unfold matched_files. apply in_flat_map.
  exists p. split.
  - simpl in Hp |- *. tauto.
  - simpl in Hp.
    destruct Hp as [<-|[<-|[<-|[<-|[<-|[]]]]]];
      unfold matched_by;
      match goal with
      | |- context [PyStr.contains "*" ?p] =>
          let b := eval vm_compute in (PyStr.contains "*" p) in
          change (PyStr.contains "*" p) with b;
          let c := eval vm_compute in (components p) in
          change (components p) with c
      end; cbv iota; rewrite Hex; now left.
Qed.

Lemma matched_workflow (repo_dir : path) (fs : node)
    (entries : list (string * node)) (name : string) :
  lookup (repo_dir ++ [".github"; "workflows"])%list fs = Some (Dir true entries) ->
  In name (map fst entries) ->
  fnmatch "*.yml" name = true \/ fnmatch "*.yaml" name = true ->
  In (".github/workflows/" ++ name, (repo_dir ++ [".github"; "workflows"; name])%list)
     (matched_files repo_dir fs).
Proof.
  intros Hdir Hname Hmatch. unfold matched_files. apply in_flat_map.
  assert (Hpat : forall pattern,
             parent_of pattern = [".github"; "workflows"] ->
             PyStr.contains "*" pattern = true ->
             fnmatch (name_of pattern) name = true ->
             In (".github/workflows/" ++ name,
                 (repo_dir ++ [".github"; "workflows"; name])%list)
                (matched_by repo_dir fs pattern)).
  { intros pattern Hparent Hstar Hfn. unfold matched_by.
    rewrite Hstar, Hparent. unfold exists_, glob. rewrite Hdir.
    apply in_map_iff. exists name. split.
    - unfold path_join. now rewrite <- app_assoc.
    - apply filter_In. now split. }
  destruct Hmatch as [Hyml|Hyaml].
  - exists ".github/workflows/*.yml". split; [simpl; tauto|].
    apply Hpat; [reflexivity | reflexivity | exact Hyml].
  - exists ".github/workflows/*.yaml". split; [simpl; tauto|].
    apply Hpat; [reflexivity | reflexivity | exact Hyaml].
Qed.

(* ================================================================== *)
(** ** The prompt assembler *)

Lemma investigation_point_dict (env : Env) (fields : list (string * json)) :
  investigation_point env (JObj fields) = Ok (point_line env fields).
Proof.
  unfold investigation_point, point_line, described. simpl.
  destruct (Py.item "description" fields); reflexivity.
Qed.



Lemma header_not_point (env : Env) (fields : list (string * json)) :
  point_line env fields <> investigation_header.
Proof. unfold point_line, investigation_header. simpl. discriminate. Qed.


(* ================================================================== *)
(** ** The model invoker *)




(* ================================================================== *)
(** ** The order [sorted] sorts by *)

Section SortOrder.

Lemma ascii_compare_trans (x y z : ascii) (c : comparison) :
  Ascii.compare x y = c -> Ascii.compare y z = c -> Ascii.compare x z = c.
Proof.
  unfold Ascii.compare. destruct c; intros H1 H2.
  - apply N.compare_eq_iff in H1, H2. apply N.compare_eq_iff. congruence.
  - rewrite N.compare_lt_iff in *. now apply N.lt_trans with (N_of_ascii y).
  - rewrite N.compare_gt_iff in *. now apply N.lt_trans with (N_of_ascii y).
Qed.

Lemma string_compare_not_gt_trans (a b c : string) :
  String.compare a b <> Gt -> String.compare b c <> Gt -> String.compare a c <> Gt.
Proof.
  revert b c. induction a as [|x a IH]; intros [|y b] [|z c]; simpl;
    try congruence.
  destruct (Ascii.compare x y) eqn:Hxy; try congruence;
    destruct (Ascii.compare y z) eqn:Hyz; try congruence; intros H1 H2.
  - rewrite (ascii_compare_trans x y z Eq Hxy Hyz). now apply IH with b.
  - apply Ascii.compare_eq_iff in Hxy. subst y. now rewrite Hyz.
  - apply Ascii.compare_eq_iff in Hyz. subst z. now rewrite Hxy.
  - now rewrite (ascii_compare_trans x y z Lt Hxy Hyz).
Qed.

Lemma string_leb_trans (a b c : string) :
  String.leb a b = true -> String.leb b c = true -> String.leb a c = true.
Proof.
  unfold String.leb. intros H1 H2.
  pose proof (string_compare_not_gt_trans a b c) as T.
  destruct (String.compare a b); try discriminate;
    destruct (String.compare b c); try discriminate;
    destruct (String.compare a c); try reflexivity;
    exfalso; apply T; congruence.
Qed.

Lemma key_le_total (a b : bool * string) : key_le a b = true \/ key_le b a = true.
Proof.
  destruct a as [[|] a], b as [[|] b]; unfold key_le; simpl; auto;
    apply String.leb_total.
Qed.


Lemma key_le_trans (a b c : bool * string) :
  key_le a b = true -> key_le b c = true -> key_le a c = true.
Proof.
  destruct a as [[|] a], b as [[|] b], c as [[|] c]; unfold key_le; simpl;
    try discriminate; try reflexivity; apply string_leb_trans.
Qed.




(** [sorted] carries a relation between two listings over to the sorted
    lists when related items have the same key. *)
Lemma insert_sorted_Forall2 (R : string * node -> string * node -> Prop)
    (x y : string * node) (l1 l2 : list (string * node)) :
  (forall a b, R a b -> sort_key a = sort_key b) ->
  R x y -> Forall2 R l1 l2 ->
  Forall2 R (insert_sorted x l1) (insert_sorted y l2).
Proof.
  intros Hkey Hxy Hl. induction Hl as [|a b l1 l2 Hab Hl IH]; simpl.
  - now constructor.
  - rewrite (Hkey _ _ Hxy), (Hkey _ _ Hab).
    destruct (key_le (sort_key y) (sort_key b)); repeat constructor; assumption.
Qed.

Lemma sorted_Forall2 (R : string * node -> string * node -> Prop)
    (l1 l2 : list (string * node)) :
  (forall a b, R a b -> sort_key a = sort_key b) ->
  Forall2 R l1 l2 -> Forall2 R (sorted l1) (sorted l2).
Proof.
  intros Hkey Hl. induction Hl as [|a b l1 l2 Hab Hl IH]; simpl.
  - constructor.
  - now apply insert_sorted_Forall2.
Qed.

Lemma insert_sorted_permutation (x : string * node) (l : list (string * node)) :
  Permutation (x :: l) (insert_sorted x l).
Proof.
  induction l as [|y l IH]; simpl; [reflexivity|].
  destruct (key_le (sort_key x) (sort_key y)); [reflexivity|].
  rewrite perm_swap. now apply perm_skip.
Qed.

Lemma sorted_is_permutation (l : list (string * node)) : Permutation l (sorted l).
Proof.
  induction l as [|x l IH]; simpl; [reflexivity|].
  rewrite <- insert_sorted_permutation. now apply perm_skip.
Qed.

End SortOrder.

(* ================================================================== *)
(** ** The tree builder *)

Section TreeBuilder.






(** A line tells its indentation, its connector and its name. *)
Lemma tree_line_unique (indent1 indent2 : list bool) (last1 last2 : bool)
    (name1 name2 : string) :
  tree_line indent1 last1 name1 = tree_line indent2 last2 name2 ->
  indent1 = indent2 /\ last1 = last2 /\ name1 = name2.
Proof.
  revert indent2. induction indent1 as [|b1 indent1 IH]; intros [|b2 indent2] H.
  - destruct last1, last2; simpl in H; inversion H; auto.
  - destruct last1, b2; simpl in H; discriminate H.
  - destruct b1, last2; simpl in H; discriminate H.
  - destruct b1, b2; simpl in H; try discriminate H; inversion H as [H'];
      destruct (IH _ H') as (-> & -> & ->); auto.
Qed.

End TreeBuilder.





(* ================================================================== *)
(** ** Facts about the file tree *)

Section FileTree.

Lemma child_remove_entries (name : string) (children : list (string * node)) :
  child name (remove_entries name children) = None.
Proof.
  induction children as [|[k n] rest IH]; [reflexivity|].
  unfold remove_entries in *. simpl.
  destruct (String.eqb k name) eqn:E; simpl; [exact IH|].
  now rewrite E.
Qed.

Lemma child_remove_other (name other : string) (children : list (string * node)) :
  other <> name ->
  child other (remove_entries name children) = child other children.
Proof.
  intros Hne. induction children as [|[k n] rest IH]; [reflexivity|].
  unfold remove_entries in *. simpl.
  destruct (String.eqb_spec k name) as [->|Hk]; simpl.
  - apply String.eqb_neq in Hne. rewrite String.eqb_sym in Hne.
    now rewrite Hne.
  - now rewrite IH.
Qed.

Lemma child_alter_entries (f : node -> option node) (name : string)
    (children : list (string * node)) :
  child name (alter_entries f name children)
  = match child name children with
    | Some c => f c
    | None => None
    end.
Proof.
  induction children as [|[k n] rest IH]; [reflexivity|].
  simpl. destruct (String.eqb k name) eqn:E.
  - destruct (f n); simpl; [now rewrite E | apply child_remove_entries].
  - simpl. now rewrite E.
Qed.

Lemma child_alter_other (f : node -> option node) (name other : string)
    (children : list (string * node)) :
  other <> name ->
  child other (alter_entries f name children) = child other children.
Proof.
  intros Hne. induction children as [|[k n] rest IH]; [reflexivity|].
  simpl. destruct (String.eqb_spec k name) as [->|Hk].
  - apply String.eqb_neq in Hne. rewrite String.eqb_sym in Hne.
    destruct (f n); simpl; rewrite Hne; [reflexivity|].
    apply child_remove_other. now apply String.eqb_neq; rewrite String.eqb_sym.
  - simpl. now rewrite IH.
Qed.

Lemma child_app_new (name other : string) (n : node) (children : list (string * node)) :
  child other (children ++ [(name, n)])%list
  = match child other children with
    | Some c => Some c
    | None => if String.eqb name other then Some n else None
    end.
Proof.
  induction children as [|[k c] rest IH]; simpl; [reflexivity|].
  destruct (String.eqb k other); [reflexivity | exact IH].
Qed.

Lemma lookup_app (p q : path) (fs : node) :
  lookup (p ++ q)%list fs
  = match lookup p fs with
    | Some c => lookup q c
    | None => None
    end.
Proof.
  revert fs. induction p as [|name p IH]; intros fs; [reflexivity|].
  simpl. destruct fs as [|l children]; [reflexivity|].
  destruct (child name children); [apply IH | reflexivity].
Qed.

Lemma update_cons (f : node -> option node) (name : string) (rest : path)
    (l : bool) (children : list (string * node)) :
  rest <> [] ->
  update f (name :: rest) (Dir l children)
  = Dir l (alter_entries (fun c => Some (update f rest c)) name children).
Proof. destruct rest; [congruence | reflexivity]. Qed.

(** The node at [p] after [update f p], for a path below the root. *)
Lemma lookup_update (f : node -> option node) (p : path) :
  p <> [] ->
  forall fs,
    lookup p (update f p fs)
    = match lookup p fs with
      | Some c => f c
      | None => None
      end.
Proof.
  induction p as [|name rest IH]; [congruence|]. intros _ fs.
  destruct fs as [text|l children]; [reflexivity|].
  destruct rest as [|name' rest'].
  - cbn [update lookup]. rewrite child_alter_entries.
    destruct (child name children); [|reflexivity]. now destruct (f n).
  - cbn [update]. cbn [lookup]. rewrite child_alter_entries.
    destruct (child name children) as [c|]; [|reflexivity].
    apply IH. discriminate.
Qed.

(** [update] at one entry of a directory leaves its other entries. *)
Lemma lookup_update_sibling (f : node -> option node) (d : path) (name other : string) :
  other <> name ->
  forall fs,
    lookup (d ++ [other])%list (update f (d ++ [name])%list fs)
    = lookup (d ++ [other])%list fs.
Proof.
  intros Hne. induction d as [|x d IH]; intros fs.
  - destruct fs as [text|l children]; [reflexivity|].
    cbn [app update lookup]. now rewrite child_alter_other.
  - destruct fs as [text|l children]; [reflexivity|].
    change ((x :: d) ++ [name])%list with (x :: (d ++ [name]))%list.
    change ((x :: d) ++ [other])%list with (x :: (d ++ [other]))%list.
    rewrite update_cons by (destruct d; discriminate).
    cbn [lookup]. rewrite child_alter_entries.
    destruct (child x children) as [c|]; [apply IH | reflexivity].
Qed.

(** [update] of a directory by a function that keeps it a node. *)
Lemma lookup_update_under (g : node -> node) (d q : path) :
  forall fs,
    lookup (d ++ q)%list (update (fun c => Some (g c)) d fs)
    = match lookup d fs with
      | Some c => lookup q (g c)
      | None => None
      end.
Proof.
  induction d as [|x d IH]; intros fs; [reflexivity|].
  destruct fs as [text|l children]; [reflexivity|].
  change ((x :: d) ++ q)%list with (x :: (d ++ q))%list.
  cbn [update].
  assert (Hsame : match d with
                  | [] => alter_entries (fun c => Some (g c)) x children
                  | _ => alter_entries
                           (fun c => Some (update (fun c0 => Some (g c0)) d c))
                           x children
                  end
                  = alter_entries
                      (fun c => Some (update (fun c0 => Some (g c0)) d c))
                      x children)
    by (destruct d; reflexivity).
  rewrite Hsame. cbn [lookup]. rewrite child_alter_entries.
  destruct (child x children) as [c|]; [apply IH | reflexivity].
Qed.

(** After [mkdir] there is a directory at [p]: the one that was there, or
    a new, empty, listable one. *)
Lemma mkdir_from_lookup (p : path) :
  forall (at_ : path) (fs fs' : node),
    mkdir_from at_ p fs = Ok fs' ->
    exists l children,
      lookup p fs' = Some (Dir l children)
      /\ (lookup p fs = Some (Dir l children)
          \/ (lookup p fs = None /\ l = true /\ children = [])).
Proof.
  induction p as [|name rest IH]; intros at_ fs fs' Hmk.
  - destruct fs as [text|l children]; [discriminate|].
    inversion Hmk; subst. exists l, children. split; [reflexivity | now left].
  - destruct fs as [text|l children]; [discriminate|].
    cbn [mkdir_from] in Hmk. cbn [lookup].
    destruct (child name children) as [c|] eqn:Hc.
    + destruct (mkdir_from (path_join at_ name) rest c) as [c'|e] eqn:Hrec;
        [|discriminate].
      inversion Hmk; subst.
      destruct (IH _ _ _ Hrec) as (l0 & ch0 & Hnew & Hold).
      exists l0, ch0. split; [|exact Hold].
      cbn [lookup]. rewrite child_alter_entries, Hc. exact Hnew.
    + destruct (mkdir_from (path_join at_ name) rest (Dir true [])) as [c'|e] eqn:Hrec;
        [|discriminate].
      inversion Hmk; subst.
      destruct (IH _ _ _ Hrec) as (l0 & ch0 & Hnew & Hold).
      exists l0, ch0. split.
      * cbn [lookup]. rewrite child_app_new, Hc, String.eqb_refl. exact Hnew.
      * right. split; [reflexivity|].
        destruct Hold as [Hold|Hold]; [|tauto].
        destruct rest; simpl in Hold; [|discriminate].
        now inversion Hold.
Qed.

Lemma put_text_join (d : path) (name text : string) (fs : node) :
  put_text (path_join d name) text fs = write_entry d name text fs.
Proof.
  unfold put_text, path_join, PyStr.last_item.
  rewrite removelast_last, last_last.
  destruct d; reflexivity.
Qed.

(** Writing a file leaves the other entries of its directory. *)
Lemma put_text_sibling (d : path) (name other text : string) (fs fs' : node) :
  other <> name ->
  put_text (path_join d name) text fs = Ok fs' ->
  lookup (path_join d other) fs' = lookup (path_join d other) fs.
Proof.
  intros Hne. rewrite put_text_join. unfold write_entry, path_join.
  destruct (lookup d fs) as [[text0|l children]|] eqn:Hd; try discriminate.
  destruct (child name children) as [[text0|l0 ch0]|] eqn:Hc; try discriminate;
    intros H; inversion H; subst; clear H.
  - now apply lookup_update_sibling.
  - rewrite (lookup_update_under
               (fun c => match c with
                         | Dir l1 ch =>
                             Dir l1 (ch ++ [(name, File (Some text))])%list
                         | File _ => c
                         end) d [other] fs).
    rewrite lookup_app, Hd. cbn [lookup]. rewrite child_app_new.
    apply String.eqb_neq in Hne. rewrite String.eqb_sym in Hne.
    destruct (child other children); [reflexivity | now rewrite Hne].
Qed.

(** How [write_text] ends: the text is in the file; or it raised, with
    the file as it was or holding what had got there. *)
Lemma write_text_inv (env : Env) (p : path) (text : string) (fs fs' : node)
    (outcome : result unit) :
  write_text env p text fs = (fs', outcome) ->
  (outcome = Ok tt /\ write_stops env p text = None /\ put_text p text fs = Ok fs')
  \/ (exists e,
         outcome = Raise e
         /\ (fs' = fs
             \/ exists partial,
                 write_stops env p text = Some (partial, e)
                 /\ put_text p partial fs = Ok fs')).
Proof.
  unfold write_text.
  destruct (write_stops env p text) as [[partial e]|].
  - destruct (put_text p partial fs) as [written|e'] eqn:Hput;
      intros H; inversion H; subst; right; eexists; split; eauto.
  - destruct (put_text p text fs) as [written|e'] eqn:Hput;
      intros H; inversion H; subst; [now left|].
    right; eexists; split; eauto.
Qed.

(** A removal that only unlistable directories withstand removes a tree
    in which every directory can be listed. *)
Lemma rm_where_listable_all (n : node) :
  listable_tree n = true -> rm_where_listable n = None.
Proof.
  induction n as [text|l children IH] using node_entries_ind; [reflexivity|].
  cbn [listable_tree rm_where_listable]. intros H.
  apply andb_true_iff in H as [-> Hall].
  induction IH as [|[k c] cs Hc Hcs IHcs]; [reflexivity|].
  apply andb_true_iff in Hall as [Hhead Htail].
  cbn [snd] in Hc. rewrite (Hc Hhead). now apply IHcs.
Qed.

End FileTree.

(* ================================================================== *)
(** ** The single-repository orchestrator *)

Section Orchestrator.

Variables (env : Env) (api_key repo_url repo_type : string) (output_dir : path).

Let clone_dir := clone_dir_of output_dir repo_url.
Let artifact := output_file_of output_dir repo_url.

Lemma clone_name_not_output_name (name : string) :
  "clone_" ++ name <> name ++ ".arch.md".
Proof.
  intros H. apply (f_equal String.length) in H.
  rewrite !length_append in H. simpl in H. lia.
Qed.

Lemma clone_dir_not_root : clone_dir <> [].
Proof.
  unfold clone_dir, clone_dir_of, path_join. destruct output_dir; discriminate.
Qed.

(** How the body of the [try] statement ends.  It returns the result
    of a success, the document of the model invoker being written; or it
    raises, the tree being as the clone left it or, where it is
    [write_text] that raised, with what had got into the artifact. *)
Lemma try_body_inv (fs fs' : node) (outcome : result AnalysisResult) :
  try_body env api_key repo_url repo_type output_dir fs = (fs', outcome) ->
  forall base,
    base = set_entries clone_dir
             (fst (git_clone env repo_url (entries_at clone_dir fs))) fs ->
  (outcome = Ok {| success := true; repo_name := repo_name_of repo_url;
                   output_file := Some artifact; error := None |}
   /\ exists file_tree key_files prompts text,
       _call_claude_api env api_key (repo_name_of repo_url) repo_type file_tree
         key_files prompts = Ok (JStr text)
       /\ put_text artifact text base = Ok fs')
  \/ (exists e,
         outcome = Raise e
         /\ (fs' = base
             \/ exists text partial,
                 write_stops env artifact text = Some (partial, e)
                 /\ put_text artifact partial base = Ok fs')).
Proof.
  unfold try_body. fold clone_dir. fold artifact.
  destruct (git_clone env repo_url (entries_at clone_dir fs)) as [cloned ran].
  cbn [fst]. intros H base ->.
  assert (Hraise : forall e,
             (set_entries clone_dir cloned fs, @Raise AnalysisResult e) = (fs', outcome) ->
             exists e0,
               outcome = Raise e0
               /\ (fs' = set_entries clone_dir cloned fs
                   \/ exists text partial,
                       write_stops env artifact text = Some (partial, e0)
                       /\ put_text artifact partial (set_entries clone_dir cloned fs)
                          = Ok fs')).
  { intros e He. inversion He; subst. exists e. split; [reflexivity | now left]. }
  destruct ran as [proc|e]; cbn [Py.bind] in H; [|right; eapply Hraise, H].
  destruct (negb (fst proc =? 0)%Z); cbn [Py.bind] in H; [right; eapply Hraise, H|].
  destruct (load_prompts_config env repo_type _) as [cfg|e]; cbn [Py.bind] in H;
    [|right; eapply Hraise, H].
  destruct (_build_file_tree clone_dir _ 3) as [tree|e]; cbn [Py.bind] in H;
    [|right; eapply Hraise, H].
  destruct (Py.get cfg "prompts" (JArr [])) as [prompts|e]; cbn [Py.bind] in H;
    [|right; eapply Hraise, H].
  destruct (_call_claude_api _ _ _ _ _ _ _) as [doc|e] eqn:Hcall; cbn [Py.bind] in H;
    [|right; eapply Hraise, H].
  destruct doc as [| | |text| |]; try (right; eapply Hraise, H).
  destruct (write_text env artifact text _) as [written [[]|e]] eqn:Hw;
    inversion H; subst; clear H;
    apply write_text_inv in Hw
      as [(Hok & _ & Hput) | (e0 & Hraised & Hput)]; try discriminate.
  - left. split; [reflexivity|]. eauto 6.
  - right. exists e. split; [reflexivity|]. inversion Hraised; subst e0.
    destruct Hput as [-> | (partial & Hstops & Hput)]; [now left|].
    right. now exists text, partial.
Qed.

(** What the body of the [try] statement returns is what
    [write_text] left. *)
Lemma try_body_written (fs fs' : node) (r : AnalysisResult) :
  try_body env api_key repo_url repo_type output_dir fs = (fs', Ok r) ->
  exists text,
    put_text artifact text
      (set_entries clone_dir
         (fst (git_clone env repo_url (entries_at clone_dir fs))) fs)
    = Ok fs'.
Proof.
  intros H.
  destruct (try_body_inv _ _ _ H _ eq_refl)
    as [(_ & _ & _ & _ & text & _ & Hput) | (e & He & _)]; [|discriminate].
  now exists text.
Qed.


(** The body of the [try] statement keeps the clone directory a
    directory, holding what [git clone] left. *)
Lemma try_body_clone_dir (fs : node) (l : bool) (existing : list (string * node)) :
  lookup clone_dir fs = Some (Dir l existing) ->
  lookup clone_dir
    (fst (try_body env api_key repo_url repo_type output_dir fs))
  = Some (Dir l (fst (git_clone env repo_url existing))).
Proof.
  intros Hdir.
  assert (Hentries : entries_at clone_dir fs = existing)
    by (unfold entries_at; now rewrite Hdir).
  assert (Hset : lookup clone_dir
                   (set_entries clone_dir (fst (git_clone env repo_url existing)) fs)
                 = Some (Dir l (fst (git_clone env repo_url existing)))).
  { unfold set_entries. rewrite lookup_update by apply clone_dir_not_root.
    now rewrite Hdir. }
  assert (Hput : forall text fs',
             put_text artifact text
               (set_entries clone_dir (fst (git_clone env repo_url existing)) fs)
             = Ok fs' ->
             lookup clone_dir fs'
             = Some (Dir l (fst (git_clone env repo_url existing)))).
  { intros text fs' Hw.
    unfold clone_dir, clone_dir_of, artifact, output_file_of in *.
    rewrite (put_text_sibling _ _ _ _ _ _ (clone_name_not_output_name _) Hw).
    exact Hset. }
  destruct (try_body env api_key repo_url repo_type output_dir fs)
    as [fs' outcome] eqn:Hbody; cbn [fst].
  pose proof (try_body_inv _ _ _ Hbody _ eq_refl) as Hends.
  rewrite Hentries in Hends.
  destruct Hends as [(_ & _ & _ & _ & text & _ & Hw)
                    | (e & _ & [-> | (text & partial & _ & Hw)])];
    [exact (Hput _ _ Hw) | exact Hset | exact (Hput _ _ Hw)].
Qed.

(** Once the clone directory has been made, [analyze_repository]
    returns a result; what the body of the [try] statement raises comes
    back as a failed result with the message of the exception. *)
Lemma analyze_repository_returns (fs made : node) :
  mkdir clone_dir fs = Ok made ->
  exists fs' returned,
    analyze_repository env api_key repo_url repo_type output_dir fs
    = (fs', Ok returned)
    /\ repo_name returned = repo_name_of repo_url
    /\ (forall r,
          snd (try_body env api_key repo_url repo_type output_dir made) = Ok r ->
          returned = r /\ success r = true)
    /\ (forall e,
          snd (try_body env api_key repo_url repo_type output_dir made) = Raise e ->
          success returned = false /\ error returned = Some (exn_str e)
          /\ output_file returned = None).
Proof.
  intros Hmk. unfold analyze_repository. fold clone_dir. rewrite Hmk.
  destruct (try_body env api_key repo_url repo_type output_dir made)
    as [fs2 outcome] eqn:Hbody.
  eexists. eexists. split; [reflexivity|].
  cbn [snd].
  destruct (try_body_inv _ _ _ Hbody _ eq_refl) as [(-> & _) | (e & -> & _)].
  - split; [reflexivity|]. split.
    + intros r Hr. inversion Hr. now split.
    + discriminate.
  - split; [reflexivity|]. split; [discriminate|].
    intros e' He. inversion He. now repeat split.
Qed.

End Orchestrator.

(** C1.  The clone directory is made at line 54, before the [try]
    statement of line 56 is entered.  Where a regular file has the name of
    the clone directory, [mkdir] raises [FileExistsError], and the
    exception leaves [analyze_repository]: no result is returned. *)
Theorem mkdir_error_leaves_analyze_repository :
  analyze_repository sample_env "key" "https://github.com/user/repo.git"
    "backend" ["temp"] blocked_output
  = (blocked_output, Raise (FileExistsError ["temp"; "clone_repo"])).
Proof. reflexivity. Qed.

(** C2, as the code has it.  When the clone directory could be made, the
    call returns, whether the analysis succeeded or failed, and the
    [finally] clause has called [rmtree] on the clone directory as
    [git clone] left it: what is at its path afterwards is what that
    removal left.  The directory is gone exactly when the removal left
    nothing; its errors are ignored.  The call raises only what [mkdir]
    raised on the clone directory, before the [try] statement, and so
    before the [finally] clause could apply. *)
Theorem clone_dir_is_what_rmtree_leaves :
  forall (env : Env) (api_key repo_url repo_type : string) (output_dir : path)
         (fs : node),
    let clone_dir := clone_dir_of output_dir repo_url in
    let listable :=
      match lookup clone_dir fs with
      | Some (Dir l _) => l
      | _ => true
      end in
    let cloned := fst (git_clone env repo_url (entries_at clone_dir fs)) in
    let remains := rmtree_leaves env clone_dir (Dir listable cloned) in
    let '(fs', outcome) :=
      analyze_repository env api_key repo_url repo_type output_dir fs in
    match outcome with
    | Ok _ =>
        lookup clone_dir fs' = remains
        /\ (exists_ clone_dir fs' = false <-> remains = None)
    | Raise e => mkdir clone_dir fs = Raise e
    end.
Proof.
  intros env api_key repo_url repo_type output_dir fs clone_dir listable cloned remains.
  unfold analyze_repository. fold clone_dir.
  destruct (mkdir clone_dir fs) as [made|e] eqn:Hmk; [|reflexivity].
  destruct (mkdir_from_lookup _ _ _ _ Hmk) as (l & existing & Hmade & Hold).
  assert (Hflag : l = listable /\ entries_at clone_dir fs = existing).
  { unfold listable, entries_at.
    destruct Hold as [Hold | (Hold & -> & ->)]; rewrite Hold; now split. }
  destruct Hflag as [-> Hentries].
  pose proof (try_body_clone_dir env api_key repo_url repo_type output_dir
                made listable existing Hmade) as Hkept.
  fold clone_dir in Hkept. rewrite <- Hentries in Hkept. fold cloned in Hkept.
  destruct (try_body env api_key repo_url repo_type output_dir made)
    as [fs2 outcome].
  cbn [fst] in Hkept.
  assert (Hremains : lookup clone_dir
                    (if exists_ clone_dir fs2 then rmtree env clone_dir fs2 else fs2)
                  = remains).
  { unfold exists_ at 1. rewrite Hkept. unfold rmtree.
    rewrite lookup_update by apply clone_dir_not_root.
    now rewrite Hkept. }
  split; [exact Hremains|].
  unfold exists_ at 1. rewrite Hremains.
  destruct remains; split; congruence.
Qed.

Lemma clone_dir_is_what_rmtree_leaves_witness :
  exists_ ["temp"; "clone_repo"]
    (fst (analyze_repository sample_env "key" "https://github.com/user/repo.git"
            "backend" ["temp"] (Dir true [])))
  = false.
Proof.
  pose proof (clone_dir_is_what_rmtree_leaves
                sample_env "key" "https://github.com/user/repo.git" "backend"
                ["temp"] (Dir true [])) as T.
  cbv zeta in T.
  destruct (analyze_repository sample_env "key" "https://github.com/user/repo.git"
              "backend" ["temp"] (Dir true [])) as [fs' [returned|e]] eqn:Hrun.
  - cbn [fst]. apply (proj2 T). reflexivity.
  - discriminate Hrun.
Defined.

(** The claim of C2 as it stands fails: a clone directory left behind
    with a directory in it that cannot be listed is adopted by
    [mkdir(exist_ok=True)], [git clone] fails on it, [rmtree] cannot empty
    it and, its errors being ignored, the call returns with the directory
    still there. *)
Lemma clone_dir_left_when_removal_fails :
  exists fs' returned,
    analyze_repository refusing_env "key" "https://github.com/user/repo.git"
      "backend" ["temp"] leftover_output
    = (fs', Ok returned)
    /\ success returned = false
    /\ exists_ (clone_dir_of ["temp"] "https://github.com/user/repo.git") fs' = true.
Proof.
  eexists. eexists. split; [reflexivity|]. split; reflexivity.
Qed.

(* ================================================================== *)
(** ** The batch driver *)

(** When every call of the orchestrator returns, the loop appends one
    result for each entry, in the order of the entries. *)
Lemma analyze_each_appends (env : Env) (api_key : string) (output_dir : path)
    (repos : list (string * RepoConfig)) :
  forall (results results' : list AnalysisResult) (fs fs' : node),
    analyze_each env api_key output_dir repos results fs = (fs', Ok results') ->
    exists added,
      results' = (results ++ added)%list
      /\ map repo_name added
         = map (fun entry => repo_name_of (url (snd entry))) repos.
Proof.
  induction repos as [|[name config] rest IH]; intros results results' fs fs' H.
  - inversion H; subst. exists []. now rewrite app_nil_r.
  - cbn [analyze_each] in H.
    destruct (analyze_repository env api_key (url config) (type config)
                output_dir fs) as [fs1 [r|e]] eqn:Hone; [|discriminate].
    apply IH in H as (added & -> & Hnames).
    exists (r :: added). rewrite <- app_assoc. split; [reflexivity|].
    cbn [map snd]. rewrite Hnames. f_equal.
    unfold analyze_repository in Hone.
    destruct (mkdir _ fs) as [made|e] eqn:Hmk; [|discriminate].
    destruct (analyze_repository_returns env api_key (url config) (type config)
                output_dir fs made Hmk) as (fs2 & r2 & Heq & Hname & _).
    unfold analyze_repository in Heq. rewrite Hmk in Heq.
    rewrite Heq in Hone. inversion Hone; subst. exact Hname.
Qed.

(** C3.  A batch of two repositories, the clone directory of the first
    being taken by a regular file: the exception of [mkdir] leaves the
    orchestrator and the driver, no result is produced, and the second
    repository is never analysed. *)
Theorem batch_stops_at_mkdir_error :
  analyze_all_repositories sample_env "key" sample_batch ["temp"] blocked_output
  = (blocked_output, Raise (FileExistsError ["temp"; "clone_repo"])).
Proof. reflexivity. Qed.

(* ================================================================== *)
(** ** The connectors of the tree *)

(** C4.  [is_last] compares the index of an item with the length of the
    whole sorted listing, ignored items included.  In a directory holding
    [src] and [venv], [venv] is last in sorted order and skipped; [src],
    the last entry drawn, gets the connector of an inner entry and the
    bar runs on below it. *)
Theorem last_drawn_entry_keeps_inner_connector :
  _build_file_tree [] venv_last 3
  = Ok ("├── src" ++ NL ++ "│   └── main.py").
Proof. reflexivity. Qed.

(* ================================================================== *)
(** ** The prompt catalog *)

Lemma repo_types_plain : forallb plain_name REPO_TYPES = true.
Proof. reflexivity. Qed.

(** C5, as the code has it.  For a repository type that is a plain name,
    as the six types of the command line are, the catalog is
    [prompts/<type>/prompts.json] when something exists at the path
    [prompts/<type>], a directory or a file, and
    [prompts/shared/prompts.json] when nothing does; when the file so
    chosen does not exist, the prompt list is empty and nothing is
    raised. *)
Theorem prompts_fall_back_on_missing_type_directory :
  forall (env : Env) (repo_type : string) (fs : node),
    plain_name repo_type = true ->
    let prompts := path_join (cwd env) "prompts" in
    (exists_ (path_join prompts repo_type) fs = true ->
     prompts_file_of env repo_type fs
     = path_join (path_join prompts repo_type) "prompts.json")
    /\ (exists_ (path_join prompts repo_type) fs = false ->
        prompts_file_of env repo_type fs
        = path_join (path_join prompts "shared") "prompts.json")
    /\ (exists_ (prompts_file_of env repo_type fs) fs = false ->
        exists prompts_config,
          load_prompts_config env repo_type fs = Ok prompts_config
          /\ Py.get prompts_config "prompts" (JArr []) = Ok (JArr [])).
Proof.
  intros env repo_type fs _ prompts. unfold prompts. repeat split.
  - intros H. unfold prompts_file_of. now rewrite H.
  - intros H. unfold prompts_file_of. now rewrite H.
  - intros H. unfold load_prompts_config. rewrite H.
    eexists. split; reflexivity.
Qed.

Lemma prompts_fall_back_on_missing_type_directory_witness :
  prompts_file_of catalog_env "mobile" prompts_tree
  = ["prompts"; "shared"; "prompts.json"]
  /\ prompts_file_of catalog_env "backend" prompts_tree
     = ["prompts"; "backend"; "prompts.json"]
  /\ (exists prompts_config,
         load_prompts_config catalog_env "backend" prompts_tree = Ok prompts_config
         /\ Py.get prompts_config "prompts" (JArr []) = Ok (JArr []))
  /\ prompts_file_of catalog_env "backend" prompts_tree_with_file
     = ["prompts"; "backend"; "prompts.json"]
  /\ (exists prompts_config,
         load_prompts_config catalog_env "backend" prompts_tree_with_file
         = Ok prompts_config
         /\ Py.get prompts_config "prompts" (JArr []) = Ok (JArr [])).
Proof.
  split; [|split; [|split; [|split]]].
  - exact (proj1 (proj2 (prompts_fall_back_on_missing_type_directory
                           catalog_env "mobile" prompts_tree eq_refl)) eq_refl).
  - exact (proj1 (prompts_fall_back_on_missing_type_directory
                    catalog_env "backend" prompts_tree eq_refl) eq_refl).
  - exact (proj2 (proj2 (prompts_fall_back_on_missing_type_directory
                           catalog_env "backend" prompts_tree eq_refl)) eq_refl).
  - exact (proj1 (prompts_fall_back_on_missing_type_directory
                    catalog_env "backend" prompts_tree_with_file eq_refl) eq_refl).
  - exact (proj2 (proj2 (prompts_fall_back_on_missing_type_directory
                           catalog_env "backend" prompts_tree_with_file eq_refl))
             eq_refl).
Defined.

(** The claim of C5 as it stands fails: with a directory [prompts/backend]
    that holds no catalog, the catalog of the type does not exist and the
    shared one does, yet the shared one is not used and the prompt list is
    empty. *)
Lemma shared_catalog_unused_when_type_directory_exists :
  exists_ ["prompts"; "backend"; "prompts.json"] prompts_tree = false
  /\ exists_ ["prompts"; "shared"; "prompts.json"] prompts_tree = true
  /\ spec_prompts_file catalog_env "backend" prompts_tree
     = ["prompts"; "shared"; "prompts.json"]
  /\ prompts_file_of catalog_env "backend" prompts_tree
     <> spec_prompts_file catalog_env "backend" prompts_tree
  /\ load_prompts_config catalog_env "backend" prompts_tree
     = Ok (JObj [("prompts", JArr [])]).
Proof.
  repeat split; try reflexivity. discriminate.
Qed.

(* ================================================================== *)
(** * Further properties *)

(** ** The tree builder: depth, order and coverage *)

Section TreeShape.




Lemma insert_sorted_strongly (x : string * node) (l : list (string * node)) :
  StronglySorted (fun a b => key_le (sort_key a) (sort_key b) = true) l ->
  StronglySorted (fun a b => key_le (sort_key a) (sort_key b) = true)
                 (insert_sorted x l).
Proof.
  induction 1 as [|y l Hl IH Hy]; simpl.
  - repeat constructor.
  - destruct (key_le (sort_key x) (sort_key y)) eqn:E.
    + constructor; [now constructor|].
      constructor; [exact E|].
      eapply Forall_impl; [|exact Hy].
      intros z Hz. now apply key_le_trans with (sort_key y).
    + constructor; [exact IH|].
      assert (Hyx : key_le (sort_key y) (sort_key x) = true)
        by (destruct (key_le_total (sort_key x) (sort_key y)); congruence).
      eapply Permutation_Forall; [apply insert_sorted_permutation|].
      now constructor.
Qed.

Lemma sorted_strongly (l : list (string * node)) :
  StronglySorted (fun a b => key_le (sort_key a) (sort_key b) = true) (sorted l).
Proof.
  induction l as [|x l IH]; simpl; [constructor | now apply insert_sorted_strongly].
Qed.

Lemma strongly_sorted_weaken {A} (R S : A -> A -> Prop) (l : list A) :
  (forall a b, R a b -> S a b) -> StronglySorted R l -> StronglySorted S l.
Proof.
  intros Himp. induction 1 as [|x l Hl IH Hx]; constructor; [exact IH|].
  eapply Forall_impl; [|exact Hx]. intros b. apply Himp.
Qed.

(** Items that agree on name and kind, and are walked alike unless
    ignored, are visited alike. *)
Lemma visit_related_unless_ignored (walk : node -> string -> list string)
    (prefix : string) (count : nat) (items1 items2 : list (string * node)) :
  Forall2 (fun a b => fst a = fst b /\ is_dir (snd a) = is_dir (snd b)
                      /\ (ignored (fst a) = true
                          \/ forall p, walk (snd a) p = walk (snd b) p))
          items1 items2 ->
  forall start,
    flat_map (visit walk prefix count) (combine (seq start (List.length items1)) items1)
    = flat_map (visit walk prefix count) (combine (seq start (List.length items2)) items2).
Proof.
  induction 1 as [|a b l1 l2 (Hname & Hdir & Hwalk) Hl IH]; intros start.
  - reflexivity.
  - cbn [List.length seq combine flat_map]. rewrite (IH (S start)). f_equal.
    unfold visit. rewrite <- Hname, <- Hdir.
    destruct Hwalk as [Hign | Hwalk]; [now rewrite Hign | now rewrite Hwalk].
Qed.

End TreeShape.


(** X2.  [sorted(path.iterdir(), key=...)] keeps the entries and puts
    them in order: no file before a directory, and names ascending among
    the directories and among the files. *)
Theorem sorted_directories_first_then_names :
  forall items : list (string * node),
    Permutation items (sorted items)
    /\ StronglySorted
         (fun a b =>
            (is_dir (snd a) = false -> is_dir (snd b) = false)
            /\ (is_dir (snd a) = is_dir (snd b) -> String.leb (fst a) (fst b) = true))
         (sorted items).
Proof.
  intros items. split; [apply sorted_is_permutation|].
  eapply strongly_sorted_weaken; [|apply sorted_strongly].
  intros a b. unfold sort_key, key_le. cbn [fst snd].
  destruct (is_dir (snd a)), (is_dir (snd b)); simpl; intros H; split;
    congruence.
Qed.

(** Where the status of every entry can be read, the walk is that of
    [walk_dir]. *)
Lemma walk_dir_stat_answers (levels : nat) :
  forall (d : node) (prefix : string),
    walk_dir_stat (fun _ => false) levels d prefix = walk_dir levels d prefix.
Proof.
  induction levels as [|levels IH]; intros d prefix; [reflexivity|].
  destruct d as [text|[|] children]; try reflexivity.
  cbn [walk_dir_stat walk_dir].
  assert (Hnone : existsb (fun _ : string * node => false) children = false)
    by (induction children; [reflexivity | assumption]).
  rewrite Hnone.
  generalize (List.length (sorted children)). intros count.
  induction (enumerate (sorted children)) as [|[i item] rest IHrest];
    [reflexivity|].
  cbn [flat_map]. rewrite IHrest. f_equal.
  unfold visit. destruct (ignored (fst item)); [reflexivity|].
  destruct (is_dir (snd item)); [now rewrite IH | reflexivity].
Qed.



(** X4.  What an ignored directory holds never shows: replacing the
    content of an ignored entry by any other of the same kind leaves the
    lines as they are. *)
Theorem ignored_entry_content_hidden :
  forall (levels : nat) (before after : list (string * node)) (name : string)
         (n1 n2 : node) (prefix : string),
    ignored name = true ->
    is_dir n1 = is_dir n2 ->
    walk_dir levels (Dir true (before ++ (name, n1) :: after)%list) prefix
    = walk_dir levels (Dir true (before ++ (name, n2) :: after)%list) prefix.
Proof.
  intros levels before after name n1 n2 prefix Hign Hkind.
  destruct levels as [|levels]; [reflexivity|]. cbn [walk_dir].
  assert (Hrel : Forall2 (fun a b => fst a = fst b /\ is_dir (snd a) = is_dir (snd b)
                                     /\ (ignored (fst a) = true
                                         \/ forall p, walk_dir levels (snd a) p
                                                      = walk_dir levels (snd b) p))
                         (before ++ (name, n1) :: after)%list
                         (before ++ (name, n2) :: after)%list).
  { apply Forall2_app; [|constructor; [now repeat split; try left|]].
    - induction before; constructor; [now repeat split; try right | assumption].
    - induction after; constructor; [now repeat split; try right | assumption]. }
  apply sorted_Forall2 in Hrel.
  - unfold enumerate. rewrite <- (Forall2_length Hrel) at 1.
    now apply visit_related_unless_ignored.
  - intros a b (Hname & Hdir & _). unfold sort_key. now rewrite Hname, Hdir.
Qed.

Lemma ignored_entry_content_hidden_witness :
  walk_dir 4 sample_listing_1 ""
  = walk_dir 4 (Dir true
                  [("src", Dir true [("main.py", File (Some "print()")); ("lib", Dir true [])]);
                   ("README.md", File (Some "hello"));
                   ("node_modules", Dir true [])]) "".
Proof.
  exact (ignored_entry_content_hidden 4
           [("src", Dir true [("main.py", File (Some "print()")); ("lib", Dir true [])]);
            ("README.md", File (Some "hello"))]
           [] "node_modules" (Dir true [("left-pad", Dir true [])]) (Dir true []) ""
           eq_refl eq_refl).
Defined.

(* ================================================================== *)
(** ** Key files: what is recorded *)

Section Glob.

Lemma fnmatch_literal (s : string) :
  PyStr.contains "*" s = false ->
  forall name, fnmatch s name = true <-> name = s.
Proof.
  induction s as [|c s IH]; intros Hfree name.
  - destruct name; simpl; split; congruence.
  - rewrite contains_char_cons in Hfree.
    apply orb_false_iff in Hfree as [Hc Hs].
    cbn [fnmatch]. rewrite Ascii.eqb_sym, Hc.
    destruct name as [|d name]; [split; discriminate|].
    rewrite andb_true_iff, (IH Hs name), Ascii.eqb_eq.
    split; [intros [-> ->]; reflexivity | intros H; inversion H; auto].
Qed.

(** [glob] with a pattern [*suffix] takes the names that end in
    [suffix]. *)
Lemma fnmatch_star_suffix (s : string) (name : string) :
  PyStr.contains "*" s = false ->
  fnmatch (String "*" s) name = true <-> exists stem, name = stem ++ s.
Proof.
  intros Hfree. cbn [fnmatch]. rewrite Ascii.eqb_refl.
  induction name as [|d name IH].
  - rewrite orb_false_r, (fnmatch_literal s Hfree). split.
    + intros <-. now exists "".
    + intros (stem & H). destruct stem; [exact H | discriminate].
  - rewrite orb_true_iff, (fnmatch_literal s Hfree), IH. split.
    + intros [<- | (stem & ->)]; [now exists "" | now exists (String d stem)].
    + intros (stem & H). destruct stem as [|c stem].
      * left. exact H.
      * right. inversion H. now exists stem.
Qed.

End Glob.

Lemma length_slice_to (n : nat) (s : string) :
  String.length (PyStr.slice_to n s) <= n.
Proof.
  unfold PyStr.slice_to.
  destruct (Nat.le_gt_cases (String.length s) n) as [Hle|Hgt].
  - now rewrite substring_0_all.
  - rewrite length_substring_0; lia.
Qed.

(** What the loop has recorded under a key was there before or was read
    from a file of that key. *)
Lemma record_files_origin (fs : node) (key value : string)
    (l : list (string * path)) :
  forall acc,
    dict_get key (fold_left (record_file fs) l acc) = Some value ->
    dict_get key acc = Some value
    \/ exists file text,
        In (key, file) l /\ read_text file fs = Ok text
        /\ value = PyStr.slice_to KEY_FILE_CAP text.
Proof.
  induction l as [|[k f] l IH]; intros acc H; [now left|].
  cbn [fold_left] in H. apply IH in H as [H | (file & text & Hin & Hread & Hv)].
  - unfold record_file, read_into in H. cbn [fst snd] in H.
    destruct (read_text f fs) as [text|e] eqn:Hread; [|now left].
    rewrite dict_get_set in H.
    destruct (String.eqb_spec k key) as [->|Hne]; [|now left].
    right. exists f, text. inversion H. repeat split; [now left | exact Hread].
  - right. exists file, text. repeat split; [now right | exact Hread | exact Hv].
Qed.

(** The files of the allow-list, with the names [glob] lets through. *)
Lemma matched_files_shape (repo_dir : path) (fs : node) (key : string) (file : path) :
  In (key, file) (matched_files repo_dir fs) ->
  (In key ["README.md"; "package.json"; "requirements.txt"; "pyproject.toml";
           "Cargo.toml"]
   /\ file = (repo_dir ++ [key])%list)
  \/ (exists stem ext,
         (ext = ".yml" \/ ext = ".yaml")
         /\ key = ".github/workflows/" ++ stem ++ ext
         /\ file = (repo_dir ++ [".github"; "workflows"; (stem ++ ext)%string])%list).
Proof.
  intros Hin.
  destruct (matched_files_inv repo_dir fs key file Hin) as [Hfixed | (name & -> & ->)];
    [now left|].
  right.
  unfold matched_files in Hin. apply in_flat_map in Hin as (pattern & Hp & Hin).
  simpl in Hp.
  destruct Hp as [<-|[<-|[<-|[<-|[<-|[<-|[<-|[]]]]]]]];
    unfold matched_by in Hin;
    match type of Hin with
    | context [PyStr.contains "*" ?p] =>
        let b := eval vm_compute in (PyStr.contains "*" p) in
        change (PyStr.contains "*" p) with b in Hin;
        let c := eval vm_compute in (components p) in
        change (components p) with c in Hin;
        let d := eval vm_compute in (parent_of p) in
        change (parent_of p) with d in Hin;
        let n := eval vm_compute in (name_of p) in
        change (name_of p) with n in Hin
    end; cbv iota in Hin.
  1-5: exfalso; destruct (exists_ _ fs); [|contradiction];
       destruct Hin as [Heq|[]]; inversion Heq as [[Hkey Hfile]];
       discriminate Hkey.
  - destruct (exists_ _ fs); [|contradiction].
    apply in_map_iff in Hin as (name' & Heq & Hglob).
    inversion Heq as [[Hkey Hfile]]. subst name'.
    unfold glob in Hglob.
    destruct (lookup _ fs) as [[|[|] entries]|]; try contradiction.
    apply filter_In in Hglob as [_ Hmatch].
    apply (fnmatch_star_suffix ".yml" name eq_refl) in Hmatch as (stem & ->).
    exists stem, ".yml". auto.
  - destruct (exists_ _ fs); [|contradiction].
    apply in_map_iff in Hin as (name' & Heq & Hglob).
    inversion Heq as [[Hkey Hfile]]. subst name'.
    unfold glob in Hglob.
    destruct (lookup _ fs) as [[|[|] entries]|]; try contradiction.
    apply filter_In in Hglob as [_ Hmatch].
    apply (fnmatch_star_suffix ".yaml" name eq_refl) in Hmatch as (stem & ->).
    exists stem, ".yaml". auto.
Qed.

(** X5.  Whatever [_read_key_files] returns under a key is the first 5000
    characters at most of a readable file of the repository, and the key
    is one of the five fixed names or [.github/workflows/] followed by a
    name ending in [.yml] or [.yaml]: nothing else is ever recorded. *)
Theorem key_files_only_from_allow_list :
  forall (repo_dir : path) (fs : node) (key recorded : string),
    dict_get key (_read_key_files repo_dir fs) = Some recorded ->
    String.length recorded <= 5000
    /\ exists file text,
        read_text file fs = Ok text
        /\ recorded = PyStr.slice_to 5000 text
        /\ ((In key ["README.md"; "package.json"; "requirements.txt";
                     "pyproject.toml"; "Cargo.toml"]
             /\ file = (repo_dir ++ [key])%list)
            \/ (exists stem ext,
                   (ext = ".yml" \/ ext = ".yaml")
                   /\ key = ".github/workflows/" ++ stem ++ ext
                   /\ file = (repo_dir ++ [".github"; "workflows"; (stem ++ ext)%string])%list)).
Proof.
  intros repo_dir fs key recorded H.
  rewrite read_key_files_matched in H.
  apply (record_files_origin fs) in H as [H | (file & text & Hin & Hread & ->)];
    [discriminate H|].
  split; [apply length_slice_to|].
  exists file, text. split; [exact Hread|]. split; [reflexivity|].
  exact (matched_files_shape repo_dir fs key file Hin).
Qed.

Lemma key_files_only_from_allow_list_witness :
  String.length "on: push" <= 5000
  /\ exists file text,
      read_text file sample_repo = Ok text
      /\ "on: push" = PyStr.slice_to 5000 text
      /\ ((In ".github/workflows/ci.yml"
              ["README.md"; "package.json"; "requirements.txt";
               "pyproject.toml"; "Cargo.toml"]
           /\ file = ([] ++ [".github/workflows/ci.yml"])%list)
          \/ (exists stem ext,
                 (ext = ".yml" \/ ext = ".yaml")
                 /\ ".github/workflows/ci.yml" = ".github/workflows/" ++ stem ++ ext
                 /\ file = ([] ++ [".github"; "workflows"; (stem ++ ext)%string])%list)).
Proof.
  exact (key_files_only_from_allow_list [] sample_repo
           ".github/workflows/ci.yml" "on: push" eq_refl).
Defined.

(* ================================================================== *)
(** ** The prompt assembler: the other sections *)

Lemma investigation_point_line (env : Env) (prompt : json) (line : string) :
  investigation_point env prompt = Ok line -> exists rest, line = "- " ++ rest.
Proof.
  unfold investigation_point.
  destruct (Py.get prompt "name" (JStr "Unknown")) as [fallback|e]; [|discriminate].
  cbn [Py.bind].
  destruct (Py.get prompt "description" fallback) as [shown|e]; [|discriminate].
  cbn [Py.bind]. intros H. inversion H. now eexists.
Qed.

Lemma traverse_point_lines (env : Env) (l : list json) :
  forall lines,
    traverse (investigation_point env) l = Ok lines ->
    Forall (fun line => exists rest, line = "- " ++ rest) lines.
Proof.
  induction l as [|x l IH]; intros lines H.
  - inversion H. constructor.
  - cbn [traverse] in H.
    destruct (investigation_point env x) as [line|e] eqn:Hx; [|discriminate].
    cbn [Py.bind] in H.
    destruct (traverse (investigation_point env) l) as [rest|e]; [|discriminate].
    inversion H; subst. constructor; [|now apply IH].
    now apply investigation_point_line in Hx.
Qed.

(** The parts that follow the fixed request lines. *)
Lemma prompt_parts_points (env : Env) (repo_name repo_type file_tree : string)
    (key_files : list (string * string)) (prompts : json) (parts : list string) :
  prompt_parts env repo_name repo_type file_tree key_files prompts = Ok parts ->
  exists points,
    parts = (header_parts repo_name repo_type file_tree
             ++ key_file_parts key_files ++ analysis_request ++ points)%list
    /\ Forall (fun line => line = investigation_header
                           \/ exists rest, line = "- " ++ rest) points.
Proof.
  unfold prompt_parts.
  destruct (Py.truthy prompts).
  - destruct (Py.slice_to 5 prompts) as [first5|e]; [|discriminate].
    cbn [Py.bind].
    destruct (traverse (investigation_point env) first5) as [lines|e] eqn:Hl;
      [|discriminate].
    cbn [Py.bind]. intros H. inversion H.
    exists (investigation_header :: lines). split; [reflexivity|].
    constructor; [now left|].
    eapply Forall_impl; [|exact (traverse_point_lines env first5 lines Hl)].
    intros line Hline. now right.
  - cbn [Py.bind]. intros H. inversion H. exists []. split; [reflexivity | constructor].
Qed.

(** X6.  Whenever the prompt is assembled, it holds the heading
    [Key Files] if and only if some key file was read, and then one block
    for every key file, in the order of the dict, right after the three
    header parts. *)
Theorem key_files_section_iff_nonempty :
  forall (env : Env) (repo_name repo_type file_tree : string)
         (key_files : list (string * string)) (prompts : json) (parts : list string),
    prompt_parts env repo_name repo_type file_tree key_files prompts = Ok parts ->
    (In key_files_heading parts <-> key_files <> [])
    /\ exists rest,
        parts = (header_parts repo_name repo_type file_tree
                 ++ match key_files with
                    | [] => []
                    | _ => key_files_heading :: map key_file_part key_files
                    end
                 ++ rest)%list
        /\ ~ In key_files_heading rest.
Proof.
  intros env repo_name repo_type file_tree key_files prompts parts H.
  apply prompt_parts_points in H as (points & -> & Hpoints).
  assert (Hrest : ~ In key_files_heading (analysis_request ++ points)%list).
  { intros Hin. apply in_app_or in Hin as [Hin|Hin].
    - simpl in Hin.
      destruct Hin as [E|[E|[E|[E|[E|[E|[E|[E|[]]]]]]]]]; discriminate E.
    - rewrite Forall_forall in Hpoints.
      destruct (Hpoints _ Hin) as [E | (rest & E)]; discriminate E. }
  split.
  - split.
    + intros Hin Hnil. subst key_files. cbn [key_file_parts app] in Hin.
      apply in_app_or in Hin as [Hin|Hin]; [|exact (Hrest Hin)].
      simpl in Hin. destruct Hin as [E|[E|[E|[]]]]; discriminate E.
    + intros Hne. apply in_or_app. right. apply in_or_app. left.
      destruct key_files; [congruence | now left].
  - exists (analysis_request ++ points)%list. split; [reflexivity | exact Hrest].
Qed.

Lemma key_files_section_iff_nonempty_witness :
  In key_files_heading
     (header_parts "repo" "backend" "" ++ key_file_parts [("README.md", "hello")]
      ++ analysis_request ++ [])%list.
Proof.
  apply (proj1 (key_files_section_iff_nonempty
                  sample_env "repo" "backend" "" [("README.md", "hello")] (JArr [])
                  _ eq_refl)).
  discriminate.
Defined.

(** X7.  Catalog entries after the fifth are never looked at: two lists
    with the same five first entries give the same prompt and the same
    outcome of the call, whatever the later entries are. *)
Theorem entries_after_fifth_ignored :
  forall (env : Env) (api_key repo_name repo_type file_tree : string)
         (key_files : list (string * string)) (l l' : list json),
    firstn 5 l = firstn 5 l' ->
    prompt_parts env repo_name repo_type file_tree key_files (JArr l)
    = prompt_parts env repo_name repo_type file_tree key_files (JArr l')
    /\ _call_claude_api env api_key repo_name repo_type file_tree key_files (JArr l)
       = _call_claude_api env api_key repo_name repo_type file_tree key_files (JArr l').
Proof.
  intros env api_key repo_name repo_type file_tree key_files l l' H.
  assert (Hparts : prompt_parts env repo_name repo_type file_tree key_files (JArr l)
                   = prompt_parts env repo_name repo_type file_tree key_files (JArr l')).
  { unfold prompt_parts.
    destruct l as [|x l], l' as [|x' l']; try discriminate H; [reflexivity|].
    cbn [Py.truthy Py.slice_to]. now rewrite H. }
  split; [exact Hparts|].
  unfold _call_claude_api. now rewrite Hparts.
Qed.

Lemma entries_after_fifth_ignored_witness :
  prompt_parts sample_env "repo" "backend" "" []
    (JArr [JObj []; JObj []; JObj []; JObj []; JObj []; JNull])
  = prompt_parts sample_env "repo" "backend" "" []
      (JArr [JObj []; JObj []; JObj []; JObj []; JObj []]).
Proof.
  exact (proj1 (entries_after_fifth_ignored sample_env "key" "repo" "backend" "" []
                  [JObj []; JObj []; JObj []; JObj []; JObj []; JNull]
                  [JObj []; JObj []; JObj []; JObj []; JObj []] eq_refl)).
Defined.

Lemma traverse_stops_at_non_dict (env : Env) (good : list (list (string * json)))
    (bad : json) (rest : list json) :
  is_dict bad = false ->
  traverse (investigation_point env) (map JObj good ++ bad :: rest)%list
  = Raise (AttributeError bad "get").
Proof.
  intros Hbad. induction good as [|fields good IH].
  - cbn [map app traverse]. destruct bad; try discriminate Hbad; reflexivity.
  - cbn [map app traverse]. rewrite investigation_point_dict. cbn [Py.bind].
    now rewrite IH.
Qed.

(** X8.  A catalog entry among the first five that is not a dict makes
    the assembly raise [AttributeError] at the first such entry, and the
    call raises with it: no request is sent, whatever the service would
    have answered. *)
Theorem non_dict_entry_raises :
  forall (env : Env) (api_key repo_name repo_type file_tree : string)
         (key_files : list (string * string))
         (good : list (list (string * json))) (bad : json) (rest : list json),
    List.length good < 5 ->
    is_dict bad = false ->
    prompt_parts env repo_name repo_type file_tree key_files
      (JArr (map JObj good ++ bad :: rest)%list)
    = Raise (AttributeError bad "get")
    /\ _call_claude_api env api_key repo_name repo_type file_tree key_files
         (JArr (map JObj good ++ bad :: rest)%list)
       = Raise (AttributeError bad "get").
Proof.
  intros env api_key repo_name repo_type file_tree key_files good bad rest Hlen Hbad.
  assert (Hparts : prompt_parts env repo_name repo_type file_tree key_files
                     (JArr (map JObj good ++ bad :: rest)%list)
                   = Raise (AttributeError bad "get")).
  { unfold prompt_parts.
    assert (Htruthy : Py.truthy (JArr (map JObj good ++ bad :: rest)%list) = true)
      by (destruct good; reflexivity).
    rewrite Htruthy. cbn [Py.slice_to Py.bind].
    rewrite firstn_app, length_map.
    rewrite (firstn_all2 (map JObj good)) by (rewrite length_map; lia).
    destruct (5 - List.length good) as [|k] eqn:Hk; [lia|].
    cbn [firstn]. now rewrite traverse_stops_at_non_dict. }
  split; [exact Hparts|].
  unfold _call_claude_api. now rewrite Hparts.
Qed.

Lemma non_dict_entry_raises_witness :
  _call_claude_api sample_env "key" "repo" "backend" "" []
    (JArr [JObj [("name", JStr "apis")]; JStr "security"])
  = Raise (AttributeError (JStr "security") "get").
Proof.
  exact (proj2 (non_dict_entry_raises sample_env "key" "repo" "backend" "" []
                  [[("name", JStr "apis")]] (JStr "security") []
                  ltac:(simpl; lia) eq_refl)).
Defined.

(* ================================================================== *)
(** ** The model invoker: when a document comes back *)

(** X9.  [_call_claude_api] returns a document only when the request was
    sent, its answer parsed to a JSON object, the [content] of that
    object is an array that is not empty, and the first element of the
    array is an object with a [text]: the document is that [text].  From
    any other answer it raises. *)
Theorem document_only_from_first_text :
  forall (env : Env) (api_key repo_name repo_type file_tree : string)
         (key_files : list (string * string)) (prompts doc : json),
    _call_claude_api env api_key repo_name repo_type file_tree key_files prompts
    = Ok doc ->
    exists parts stdout fields first_fields rest,
      prompt_parts env repo_name repo_type file_tree key_files prompts = Ok parts
      /\ curl env api_key (PyStr.join NL parts) = Ok stdout
      /\ json_loads env stdout = Ok (JObj fields)
      /\ Py.item "content" fields = Some (JArr (JObj first_fields :: rest))
      /\ Py.item "text" first_fields = Some doc.
Proof.
  intros env api_key repo_name repo_type file_tree key_files prompts doc.
  unfold _call_claude_api.
  destruct (prompt_parts env repo_name repo_type file_tree key_files prompts)
    as [parts|e] eqn:Hparts; [|discriminate].
  cbn [Py.bind].
  destruct (curl env api_key (PyStr.join NL parts)) as [stdout|e] eqn:Hcurl;
    [|discriminate].
  cbn [Py.bind].
  destruct (json_loads env stdout) as [response|e] eqn:Hload; [|discriminate].
  cbn [Py.bind]. intros H.
  exists parts, stdout.
  destruct response as [| b | n | s | items | fields];
    cbn [Py.contains Py.bind] in H; try discriminate H.
  - destruct (PyStr.contains "content" s); cbn [Py.getitem Py.bind] in H;
      discriminate H.
  - destruct (existsb (Py.is_str "content") items); cbn [Py.getitem Py.bind] in H;
      discriminate H.
  - cbn [Py.getitem] in H.
    destruct (Py.item "content" fields) as [content|] eqn:Hc;
      cbn [Py.bind] in H; [|discriminate H].
    destruct content as [| b | n | s | [|first rest] | [|f fs]];
      cbn [Py.len Py.bind List.length Nat.ltb Nat.leb Py.getitem0] in H;
      try discriminate H.
    + destruct s as [|c s]; cbn [String.length Nat.ltb Nat.leb Py.getitem0 Py.bind Py.getitem] in H;
        discriminate H.
    + destruct first as [| b | n | s | items | first_fields];
        cbn [Py.getitem] in H; try discriminate H.
      destruct (Py.item "text" first_fields) as [text|] eqn:Ht; [|discriminate H].
      inversion H; subst.
      exists fields, first_fields, rest. repeat split; try assumption; reflexivity.
Qed.

Lemma document_only_from_first_text_witness :
  exists parts stdout fields first_fields rest,
    prompt_parts sample_env "repo" "backend" "" [] (JArr []) = Ok parts
    /\ curl sample_env "key" (PyStr.join NL parts) = Ok stdout
    /\ json_loads sample_env stdout = Ok (JObj fields)
    /\ Py.item "content" fields = Some (JArr (JObj first_fields :: rest))
    /\ Py.item "text" first_fields = Some (JStr "# Architecture").
Proof.
  exact (document_only_from_first_text sample_env "key" "repo" "backend" "" []
           (JArr []) (JStr "# Architecture") eq_refl).
Defined.

(* ================================================================== *)
(** ** The names the orchestrator derives *)

Lemma contains_slash_concat (pieces : list string) :
  Forall (fun w => PyStr.contains "/" w = false) pieces ->
  PyStr.contains "/" (PyStr.join "" pieces) = false.
Proof.
  unfold PyStr.join.
  induction 1 as [|w l Hw Hl IH]; [reflexivity|].
  destruct l as [|w' l]; [exact Hw|].
  change (String.concat "" (w :: w' :: l))
    with (w ++ String.concat "" (w' :: l)).
  now rewrite contains_char_app, Hw, IH.
Qed.

Lemma plain_name_long (name : string) :
  PyStr.contains "/" name = false ->
  2 < String.length name ->
  plain_name name = true.
Proof.
  intros Hslash Hlen. unfold plain_name. rewrite Hslash. cbn [negb andb existsb].
  destruct (String.eqb_spec name "") as [->|_]; [simpl in Hlen; lia|].
  destruct (String.eqb_spec name ".") as [->|_]; [simpl in Hlen; lia|].
  destruct (String.eqb_spec name "..") as [->|_]; [simpl in Hlen; lia|].
  reflexivity.
Qed.

Lemma repo_name_of_segment (pre seg : string) :
  PyStr.contains "/" seg = false ->
  repo_name_of seg = PyStr.replace ".git" "" seg
  /\ repo_name_of (pre ++ "/" ++ seg) = PyStr.replace ".git" "" seg.
Proof.
  intros H. unfold repo_name_of.
  destruct (last_segment pre seg H) as [-> ->]. now split.
Qed.

(** X10.  The repository name never holds a [/], whatever the URL: the
    clone directory and the artifact are entries of the output directory
    itself, under names that are plain path components. *)
Theorem repo_name_is_one_component :
  forall repo_url : string,
    PyStr.contains "/" (repo_name_of repo_url) = false
    /\ plain_name ("clone_" ++ repo_name_of repo_url) = true
    /\ plain_name (repo_name_of repo_url ++ ".arch.md") = true.
Proof.
  intros repo_url.
  assert (Hname : PyStr.contains "/" (repo_name_of repo_url) = false).
  { assert (Hseg : forall seg, PyStr.contains "/" seg = false ->
                               PyStr.contains "/" (PyStr.replace ".git" "" seg) = false).
    { intros seg Hfree.
      destruct (dot_git_pieces seg) as (pieces & _ & Heq & Hgit).
      rewrite Heq in Hfree |- *. rewrite (replace_dot_git_join pieces Hgit).
      apply contains_slash_concat. now apply pieces_without_slash. }
    destruct (last_slash repo_url) as [Hfree | (pre & seg & -> & Hfree)].
    - rewrite (proj1 (repo_name_of_segment "" repo_url Hfree)). now apply Hseg.
    - rewrite (proj2 (repo_name_of_segment pre seg Hfree)). now apply Hseg. }
  split; [exact Hname|]. split; apply plain_name_long.
  - change ("clone_" ++ repo_name_of repo_url)
      with (String "c" (String "l" (String "o" (String "n" (String "e" (String "_"
              (repo_name_of repo_url))))))).
    rewrite !contains_char_cons, Hname. reflexivity.
  - rewrite length_append. simpl. lia.
  - now rewrite contains_char_app, Hname.
  - rewrite length_append. simpl. lia.
Qed.

(** X11.  The name depends on the last segment only, and a trailing
    [.git] is dropped: repositories of one name under different owners,
    with or without the suffix, share the clone directory and the
    artifact path. *)
Theorem same_last_segment_same_artifact :
  forall (pre1 pre2 seg : string) (output_dir : path),
    PyStr.contains "/" seg = false ->
    PyStr.contains ".git" seg = false ->
    repo_name_of (pre1 ++ "/" ++ seg) = seg
    /\ repo_name_of (pre2 ++ "/" ++ seg ++ ".git") = seg
    /\ output_file_of output_dir (pre1 ++ "/" ++ seg)
       = output_file_of output_dir (pre2 ++ "/" ++ seg ++ ".git")
    /\ clone_dir_of output_dir (pre1 ++ "/" ++ seg)
       = clone_dir_of output_dir (pre2 ++ "/" ++ seg ++ ".git").
Proof.
  intros pre1 pre2 seg output_dir Hslash Hgit.
  assert (H1 : repo_name_of (pre1 ++ "/" ++ seg) = seg).
  { rewrite (proj2 (repo_name_of_segment pre1 seg Hslash)).
    now apply replace_dot_git_free. }
  assert (H2 : repo_name_of (pre2 ++ "/" ++ seg ++ ".git") = seg).
  { assert (Hs : PyStr.contains "/" (seg ++ ".git") = false)
      by now rewrite contains_char_app, Hslash.
    rewrite (proj2 (repo_name_of_segment pre2 (seg ++ ".git") Hs)).
    change (seg ++ ".git") with (seg ++ ".git" ++ "").
    rewrite (replace_dot_git_piece seg "" Hgit). apply append_empty_r. }
  unfold output_file_of, clone_dir_of. rewrite H1, H2. auto.
Qed.

Lemma same_last_segment_same_artifact_witness :
  output_file_of ["temp"] "https://github.com/alice/tools"
  = output_file_of ["temp"] "https://gitlab.com/bob/tools.git".
Proof.
  exact (proj1 (proj2 (proj2 (same_last_segment_same_artifact
                                "https://github.com/alice" "https://gitlab.com/bob"
                                "tools" ["temp"] eq_refl eq_refl)))).
Defined.

(* ================================================================== *)
(** ** The orchestrator: what a call leaves behind *)

Section FileTreeMore.

(** The file written is there. *)
Lemma put_text_lookup (d : path) (name text : string) (fs fs' : node) :
  put_text (path_join d name) text fs = Ok fs' ->
  lookup (path_join d name) fs' = Some (File (Some text)).
Proof.
  rewrite put_text_join. unfold write_entry, path_join.
  destruct (lookup d fs) as [[text0|l children]|] eqn:Hd; try discriminate.
  destruct (child name children) as [[text0|l0 ch0]|] eqn:Hc; try discriminate;
    intros H; inversion H; subst; clear H.
  - rewrite lookup_update by (destruct d; discriminate).
    rewrite lookup_app, Hd. cbn [lookup]. now rewrite Hc.
  - rewrite (lookup_update_under
               (fun c => match c with
                         | Dir l1 ch =>
                             Dir l1 (ch ++ [(name, File (Some text))])%list
                         | File _ => c
                         end) d [name] fs).
    rewrite Hd. cbn [lookup]. rewrite child_app_new, Hc, String.eqb_refl.
    reflexivity.
Qed.


End FileTreeMore.

Section OrchestratorMore.

Variables (env : Env) (api_key repo_url repo_type : string) (output_dir : path).

Let clone_dir := clone_dir_of output_dir repo_url.
Let artifact := output_file_of output_dir repo_url.

(** What the body of the [try] statement returns: the document of the
    model invoker was written, and the result says so. *)
Lemma try_body_ok_inv (fs fs' : node) (r : AnalysisResult) :
  try_body env api_key repo_url repo_type output_dir fs = (fs', Ok r) ->
  r = {| success := true; repo_name := repo_name_of repo_url;
         output_file := Some artifact; error := None |}
  /\ exists file_tree key_files prompts text,
      _call_claude_api env api_key (repo_name_of repo_url) repo_type file_tree
        key_files prompts = Ok (JStr text)
      /\ put_text artifact text
           (set_entries clone_dir
              (fst (git_clone env repo_url (entries_at clone_dir fs))) fs)
         = Ok fs'.
Proof.
  intros H.
  destruct (try_body_inv _ _ _ _ _ _ _ _ H _ eq_refl) as [(Hr & Hdoc) | (e & He & _)];
    [|discriminate].
  inversion Hr. split; [reflexivity | exact Hdoc].
Qed.

Lemma artifact_not_clone_dir :
  repo_name_of repo_url ++ ".arch.md" <> "clone_" ++ repo_name_of repo_url.
Proof. intros H. symmetry in H. now apply clone_name_not_output_name in H. Qed.

End OrchestratorMore.

(** A successful call: the result and the artifact. *)
Lemma analyze_repository_success :
  forall (env : Env) (api_key repo_url repo_type : string) (output_dir : path)
         (fs fs' : node) (returned : AnalysisResult),
    analyze_repository env api_key repo_url repo_type output_dir fs
    = (fs', Ok returned) ->
    success returned = true ->
    returned = {| success := true; repo_name := repo_name_of repo_url;
                  output_file := Some (output_file_of output_dir repo_url);
                  error := None |}
    /\ exists file_tree key_files prompts text,
        _call_claude_api env api_key (repo_name_of repo_url) repo_type file_tree
          key_files prompts = Ok (JStr text)
        /\ read_text (output_file_of output_dir repo_url) fs' = Ok text.
Proof.
  intros env api_key repo_url repo_type output_dir fs fs' returned Hrun Hsuccess.
  unfold analyze_repository in Hrun.
  destruct (mkdir (clone_dir_of output_dir repo_url) fs) as [made|e]; [|discriminate].
  destruct (try_body env api_key repo_url repo_type output_dir made)
    as [fs2 [r|e]] eqn:Hbody.
  - inversion Hrun; subst. clear Hrun.
    apply try_body_ok_inv in Hbody
      as (-> & file_tree & key_files & prompts & text & Hcall & Hw).
    split; [reflexivity|].
    exists file_tree, key_files, prompts, text. split; [exact Hcall|].
    unfold output_file_of in Hw |- *.
    pose proof (put_text_lookup _ _ _ _ _ Hw) as Hfile.
    unfold read_text.
    assert (Hkeep : lookup (path_join output_dir (repo_name_of repo_url ++ ".arch.md"))
                      (if exists_ (clone_dir_of output_dir repo_url) fs2
                       then rmtree env (clone_dir_of output_dir repo_url) fs2
                       else fs2)
                    = lookup (path_join output_dir (repo_name_of repo_url ++ ".arch.md"))
                        fs2).
    { destruct (exists_ (clone_dir_of output_dir repo_url) fs2); [|reflexivity].
      unfold rmtree, clone_dir_of, path_join.
      apply lookup_update_sibling, artifact_not_clone_dir. }
    now rewrite Hkeep, Hfile.
  - inversion Hrun; subst. discriminate Hsuccess.
Qed.

(** X12.  A result with [success = true] names the artifact, carries no
    error, and the artifact is then a file holding a document that
    [_call_claude_api] returned for this repository. *)
Theorem success_leaves_the_document :
  forall (env : Env) (api_key repo_url repo_type : string) (output_dir : path)
         (fs fs' : node) (returned : AnalysisResult),
    analyze_repository env api_key repo_url repo_type output_dir fs
    = (fs', Ok returned) ->
    success returned = true ->
    returned = {| success := true; repo_name := repo_name_of repo_url;
                  output_file := Some (output_file_of output_dir repo_url);
                  error := None |}
    /\ exists file_tree key_files prompts text,
        _call_claude_api env api_key (repo_name_of repo_url) repo_type file_tree
          key_files prompts = Ok (JStr text)
        /\ read_text (output_file_of output_dir repo_url) fs' = Ok text.
Proof. exact analyze_repository_success. Qed.

Lemma success_leaves_the_document_witness :
  exists file_tree key_files prompts text,
    _call_claude_api sample_env "key" "repo" "backend" file_tree key_files prompts
    = Ok (JStr text)
    /\ read_text ["temp"; "repo.arch.md"]
         (fst (analyze_repository sample_env "key" "https://github.com/user/repo.git"
                 "backend" ["temp"] (Dir true [])))
       = Ok text.
Proof.
  exact (proj2 (success_leaves_the_document sample_env "key"
                  "https://github.com/user/repo.git" "backend" ["temp"] (Dir true [])
                  _ _ eq_refl eq_refl)).
Defined.





(** X14.  Once the clone directory is made, a clone that ends with a
    return code other than zero comes back as a failed result whose error
    is [Git clone failed: ] followed by what [git] wrote to [stderr]; an
    exception of [subprocess.run] (a timeout) comes back as a failed
    result with the message of the exception.  No artifact is named. *)
Theorem clone_failure_is_reported :
  forall (env : Env) (api_key repo_url repo_type : string) (output_dir : path)
         (fs made : node),
    mkdir (clone_dir_of output_dir repo_url) fs = Ok made ->
    let ran := snd (git_clone env repo_url
                      (entries_at (clone_dir_of output_dir repo_url) fs)) in
    let failed message :=
      {| success := false; repo_name := repo_name_of repo_url;
         output_file := None; error := Some message |} in
    (forall returncode stderr,
        ran = Ok (returncode, stderr) -> returncode <> 0%Z ->
        snd (analyze_repository env api_key repo_url repo_type output_dir fs)
        = Ok (failed ("Git clone failed: " ++ stderr)))
    /\ (forall e,
        ran = Raise e ->
        snd (analyze_repository env api_key repo_url repo_type output_dir fs)
        = Ok (failed (exn_str e))).
Proof.
  intros env api_key repo_url repo_type output_dir fs made Hmk ran failed.
  assert (Hentries : entries_at (clone_dir_of output_dir repo_url) made
                     = entries_at (clone_dir_of output_dir repo_url) fs).
  { destruct (mkdir_from_lookup _ _ _ _ Hmk) as (l & existing & Hmade & Hold).
    unfold entries_at. rewrite Hmade.
    destruct Hold as [Hold | (Hold & _ & ->)]; now rewrite Hold. }
  assert (Hgen : forall e,
             snd (try_body env api_key repo_url repo_type output_dir made) = Raise e ->
             snd (analyze_repository env api_key repo_url repo_type output_dir fs)
             = Ok (failed (exn_str e))).
  { intros e He. unfold analyze_repository. rewrite Hmk.
    destruct (try_body env api_key repo_url repo_type output_dir made)
      as [fs2 body]. cbn [snd] in He |- *. now subst body. }
  subst ran. split.
  - intros returncode stderr Hran Hcode.
    apply (Hgen (Exn "Exception" ("Git clone failed: " ++ stderr))).
    unfold try_body. rewrite Hentries.
    destruct (git_clone env repo_url _) as [cloned ran]. cbn [snd] in Hran.
    subst ran. cbn [Py.bind fst snd].
    apply Z.eqb_neq in Hcode. now rewrite Hcode.
  - intros e Hran. apply Hgen.
    unfold try_body. rewrite Hentries.
    destruct (git_clone env repo_url _) as [cloned ran]. cbn [snd] in Hran.
    now subst ran.
Qed.

Lemma clone_failure_is_reported_witness :
  snd (analyze_repository refusing_env "key" "https://github.com/user/repo.git"
         "backend" ["temp"] leftover_output)
  = Ok {| success := false; repo_name := "repo"; output_file := None;
          error := Some "Git clone failed: fatal: destination path 'temp/clone_repo' already exists and is not an empty directory." |}.
Proof.
  exact (proj1 (clone_failure_is_reported refusing_env "key"
                  "https://github.com/user/repo.git" "backend" ["temp"]
                  leftover_output leftover_output eq_refl)
           128%Z _ eq_refl ltac:(discriminate)).
Defined.

(* ================================================================== *)
(** ** The summary *)

Lemma filter_lengths {A} (f : A -> bool) (l : list A) :
  List.length (filter f l) + List.length (filter (fun x => negb (f x)) l)
  = List.length l.
Proof.
  induction l as [|x l IH]; [reflexivity|].
  simpl. destruct (f x); simpl; lia.
Qed.

Lemma flat_map_if {A B} (f : A -> bool) (g : A -> B) (l : list A) :
  flat_map (fun x => if f x then [g x] else []) l = map g (filter f l).
Proof.
  induction l as [|x l IH]; [reflexivity|].
  simpl. destruct (f x); simpl; now rewrite IH.
Qed.

(** X15.  The counts of the summary add up: with [failing] the results
    whose [success] is false, in order, the line [Successful] shows the
    number of the others, and the line [Failed] is printed exactly when
    [failing] is not empty, shows its length and is followed by one line
    for each of its results. *)
Theorem summary_counts_add_up :
  forall results : list AnalysisResult,
    let failing := filter (fun r => negb (success r)) results in
    let total := List.length results in
    summary results
    = ([(NL ++ rule)%string;
        "📊 ANALYSIS SUMMARY";
        rule;
        ("✅ Successful: " ++ decimal (total - List.length failing) ++ "/"
           ++ decimal total)%string]
       ++ match failing with
          | [] => []
          | _ => ("❌ Failed: " ++ decimal (List.length failing) ++ "/"
                    ++ decimal total)%string
                 :: map failure_line failing
          end
       ++ [(rule ++ NL)%string])%list.
Proof.
  intros results failing total. unfold summary.
  pose proof (filter_lengths success results) as Hsum.
  fold failing in Hsum. fold total in Hsum.
  replace (List.length (filter success results)) with (total - List.length failing)
    by lia.
  fold total.
  replace (total - (total - List.length failing)) with (List.length failing) by lia.
  rewrite (flat_map_if (fun r => negb (success r)) failure_line results).
  fold failing.
  destruct failing; reflexivity.
Qed.

(* ================================================================== *)
(** ** analyze_one_repository *)

(** Making a directory leaves what lies below it. *)
Lemma mkdir_below (p q : path) (fs made : node) :
  q <> [] ->
  mkdir p fs = Ok made ->
  lookup (p ++ q)%list made = lookup (p ++ q)%list fs.
Proof.
  intros Hq Hmk.
  destruct (mkdir_from_lookup _ _ _ _ Hmk) as (l & children & Hmade & Hold).
  rewrite !lookup_app, Hmade.
  destruct Hold as [-> | (-> & -> & ->)]; [reflexivity|].
  destruct q; [congruence | reflexivity].
Qed.



(* ================================================================== *)
(** ** The batch driver on its configuration file *)

Section ConfigFile.

Variables (env : Env) (api_key : string) (output_dir : path).

(** The loop over the first items, then over the rest. *)
Lemma analyze_items_app (items rest : list (string * json)) :
  forall (results : list AnalysisResult) (fs : node),
    analyze_items env api_key output_dir (items ++ rest)%list results fs
    = match analyze_items env api_key output_dir items results fs with
      | (fs1, Ok results1) => analyze_items env api_key output_dir rest results1 fs1
      | (fs1, Raise e) => (fs1, Raise e)
      end.
Proof.
  induction items as [|[name repo_config] items IH]; intros results fs;
    [reflexivity|].
  cbn [app analyze_items].
  destruct (repo_url <- Py.getitem repo_config "url" ;;
            repo_type <- Py.getitem repo_config "type" ;;
            Ok (repo_url, repo_type)) as [[u t]|e]; [|reflexivity].
  destruct (analyze_repository_any env api_key u t output_dir fs) as [fs1 [r|e]];
    [apply IH | reflexivity].
Qed.

(** Entries given by strings are analysed as the typed loop does. *)
Lemma analyze_items_typed (repos : list (string * RepoConfig)) :
  forall (results : list AnalysisResult) (fs : node),
    analyze_items env api_key output_dir (map config_entry repos) results fs
    = analyze_each env api_key output_dir repos results fs.
Proof.
  induction repos as [|[name config] repos IH]; intros results fs; [reflexivity|].
  cbn [map analyze_items analyze_each config_entry fst snd].
  cbn [Py.getitem Py.item String.eqb Ascii.eqb Bool.eqb Py.bind analyze_repository_any].
  destruct (analyze_repository env api_key (url config) (type config) output_dir fs)
    as [fs1 [r|e]]; [apply IH | reflexivity].
Qed.

End ConfigFile.

(** X17.  On a configuration file whose [repositories] is a mapping of
    names to [{"url": <string>, "type": <string>}], the driver is the
    loop over those entries in the order of the mapping, after the output
    directory has been made. *)
Theorem typed_config_runs_the_loop :
  forall (env : Env) (api_key : string) (config_path output_dir : path) (fs : node)
         (text : string) (fields : list (string * json))
         (repos : list (string * RepoConfig)),
    read_text config_path fs = Ok text ->
    json_loads env text = Ok (JObj fields) ->
    Py.item "repositories" fields = Some (JObj (map config_entry repos)) ->
    analyze_all_from_config_file env api_key config_path output_dir fs
    = analyze_all_repositories env api_key repos output_dir fs.
Proof.
  intros env api_key config_path output_dir fs text fields repos Hread Hload Hrepos.
  unfold analyze_all_from_config_file, analyze_all_repositories.
  rewrite Hread. cbn [Py.bind]. rewrite Hload. cbn [Py.bind Py.get].
  rewrite Hrepos. cbn [Py.bind Py.len].
  destruct (mkdir output_dir fs) as [made|e]; [|reflexivity].
  apply analyze_items_typed.
Qed.

Lemma typed_config_runs_the_loop_witness :
  analyze_all_from_config_file batch_env "key" ["repos.json"] ["temp"] batch_tree
  = analyze_all_repositories batch_env "key" sample_batch ["temp"] batch_tree.
Proof.
  exact (typed_config_runs_the_loop batch_env "key" ["repos.json"] ["temp"]
           batch_tree "config" _ sample_batch eq_refl eq_refl eq_refl).
Defined.

(** X18.  A configuration that is an object without [repositories] is an
    empty batch: the output directory is made, no repository is analysed
    and the list of results is empty. *)
Theorem no_repositories_key_is_empty_batch :
  forall (env : Env) (api_key : string) (config_path output_dir : path) (fs : node)
         (text : string) (fields : list (string * json)),
    read_text config_path fs = Ok text ->
    json_loads env text = Ok (JObj fields) ->
    Py.item "repositories" fields = None ->
    analyze_all_from_config_file env api_key config_path output_dir fs
    = match mkdir output_dir fs with
      | Ok made => (made, Ok [])
      | Raise e => (fs, Raise e)
      end.
Proof.
  intros env api_key config_path output_dir fs text fields Hread Hload Hnone.
  unfold analyze_all_from_config_file.
  rewrite Hread. cbn [Py.bind]. rewrite Hload. cbn [Py.bind Py.get].
  rewrite Hnone. cbn [Py.bind Py.len].
  destruct (mkdir output_dir fs); reflexivity.
Qed.

Lemma no_repositories_key_is_empty_batch_witness :
  analyze_all_from_config_file sample_env "key" ["repos.json"] ["temp"] batch_tree
  = (Dir true [("repos.json", File (Some "config")); ("temp", Dir true [])], Ok []).
Proof.
  exact (no_repositories_key_is_empty_batch sample_env "key" ["repos.json"] ["temp"]
           batch_tree "config" _ eq_refl eq_refl eq_refl).
Defined.

(** X19.  An entry of the configuration without [url], or with [url] but
    without [type], cuts the batch short: the entries before it have been
    analysed, then [KeyError] leaves the driver; the entries after it are
    not analysed and no summary is printed. *)
Theorem entry_without_key_stops_batch :
  forall (env : Env) (api_key : string) (output_dir : path)
         (before after : list (string * json)) (name : string)
         (fields : list (string * json)) (results results1 : list AnalysisResult)
         (fs fs1 : node),
    analyze_items env api_key output_dir before results fs = (fs1, Ok results1) ->
    (Py.item "url" fields = None ->
     analyze_items env api_key output_dir
       (before ++ (name, JObj fields) :: after)%list results fs
     = (fs1, Raise (KeyError "url")))
    /\ (Py.item "url" fields <> None -> Py.item "type" fields = None ->
        analyze_items env api_key output_dir
          (before ++ (name, JObj fields) :: after)%list results fs
        = (fs1, Raise (KeyError "type"))).
Proof.
  intros env api_key output_dir before after name fields results results1 fs fs1 Hbefore.
  split.
  - intros Hurl. rewrite analyze_items_app, Hbefore.
    cbn [analyze_items Py.getitem]. now rewrite Hurl.
  - intros Hurl Htype. rewrite analyze_items_app, Hbefore.
    cbn [analyze_items Py.getitem].
    destruct (Py.item "url" fields); [|congruence].
    cbn [Py.bind]. now rewrite Htype.
Qed.

Lemma entry_without_key_stops_batch_witness :
  analyze_items sample_env "key" ["temp"]
    [config_entry ("repo", {| url := "https://github.com/user/repo.git";
                              type := "backend" |});
     ("other", JObj [("type", JStr "frontend")])]
    [] (Dir true [])
  = (Dir true [("temp", Dir true [("repo.arch.md", File (Some "# Architecture"))])],
     Raise (KeyError "url")).
Proof.
  exact (proj1 (entry_without_key_stops_batch sample_env "key" ["temp"]
                  [config_entry ("repo", {| url := "https://github.com/user/repo.git";
                                            type := "backend" |})]
                  [] "other" [("type", JStr "frontend")] [] _ (Dir true []) _
                  eq_refl) eq_refl).
Defined.

(* ================================================================== *)
(** ** main *)

(** X20.  [main] leaves through [sys.exit] in three cases only: from
    inside [parse_args], with the status [argparse] chose and nothing
    touched; with status 1 and nothing touched when, the command line
    parsed, the key is missing or empty, for either command; and with
    status 1 from [analyze-one] when the analysis failed.  [analyze-all]
    with a key returns or raises: failed repositories do not show in the
    exit status. *)
Theorem main_exit_status :
  forall (env : Env) (parse_args : parsed) (getenv_key : option string) (fs : node),
    (forall code, parse_args = ParserExit code ->
                  main env parse_args getenv_key fs = (fs, Exited code))
    /\ (forall args, parse_args = Parsed args ->
                     getenv_key = None \/ getenv_key = Some "" ->
                     main env parse_args getenv_key fs = (fs, Exited 1))
    /\ forall fs' code,
        main env parse_args getenv_key fs = (fs', Exited code) ->
        (parse_args = ParserExit code /\ fs' = fs)
        \/ (code = 1%Z
            /\ exists args,
                parse_args = Parsed args
                /\ (((getenv_key = None \/ getenv_key = Some "") /\ fs' = fs)
                    \/ exists key repo_url repo_type output_dir,
                        getenv_key = Some key
                        /\ args = AnalyzeOne repo_url repo_type output_dir
                        /\ analyze_one_repository env key repo_url repo_type
                             output_dir fs
                           = (fs', Exited 1))).
Proof.
  intros env parse_args getenv_key fs. split; [|split].
  - intros code ->. reflexivity.
  - intros args -> [-> | ->]; reflexivity.
  - intros fs' code H. unfold main in H.
    destruct parse_args as [args|exit_code]; [|inversion H; now left].
    right.
    destruct getenv_key as [key|];
      [|inversion H; split; [reflexivity|]; exists args; split; [reflexivity|];
        left; auto].
    destruct (String.eqb_spec key "") as [->|Hkey];
      [inversion H; split; [reflexivity|]; exists args; split; [reflexivity|];
       left; auto|].
    destruct args as [config output_dir | repo_url repo_type output_dir].
    + destruct (analyze_all_from_config_file env key config output_dir fs)
        as [fs1 [rs|e]]; discriminate H.
    + assert (Hcode : code = 1%Z).
      { unfold analyze_one_repository in H.
        destruct (mkdir output_dir fs) as [made|e]; [|discriminate H].
        destruct (analyze_repository env key repo_url repo_type output_dir made)
          as [fs2 [r|e]]; [|discriminate H].
        destruct (negb (success r)); now inversion H. }
      subst code. split; [reflexivity|].
      exists (AnalyzeOne repo_url repo_type output_dir). split; [reflexivity|].
      right. exists key, repo_url, repo_type, output_dir. auto.
Qed.

Lemma main_exit_status_witness :
  main sample_env (Parsed (AnalyzeAll ["repos.json"] ["temp"])) (Some "") batch_tree
  = (batch_tree, Exited 1)
  /\ main sample_env (ParserExit 2) (Some "key") batch_tree
     = (batch_tree, Exited 2).
Proof.
  split.
  - exact (proj1 (proj2 (main_exit_status sample_env
                           (Parsed (AnalyzeAll ["repos.json"] ["temp"]))
                           (Some "") batch_tree))
             _ eq_refl (or_intror eq_refl)).
  - exact (proj1 (main_exit_status sample_env (ParserExit 2) (Some "key") batch_tree)
             2%Z eq_refl).
Defined.
